(** * oyako-todo: points ledger and reward redemption

    A shallow embedding of the client-side workflows of the oyako-todo
    pages that touch a child's points:

    - [ChildPage.toggleDone]            (src/app/child/page.tsx)
    - [ChildRewardsPage.exchangeReward] (child rewards page)
    - [RewardRequestsPage.approve]      (src/app/parent/reward-requests/page.tsx)
    - [ParentRedemptionsPage.fetchRows], [approve], [reject]
                                        (src/app/parent/redemptions/page.tsx)

    Every page talks to one shared relational store (Supabase) through
    separate request/response calls.  The store is modelled as a record of
    tables, each backend call as a step of a state monad that may fail
    without effect, and every page function as a program in that monad over
    the store and the page's own React state. *)

From stdpp Require Import base option list strings gmap sorting.

Local Open Scope Z_scope.

(** ** A small state monad *)

Definition State (Σ A : Type) : Type := Σ → A * Σ.

Global Instance State_ret {Σ} : MRet (State Σ) := λ A a s, (a, s).
Global Instance State_bind {Σ} : MBind (State Σ) :=
  λ A B f m s, let '(a, s') := m s in f a s'.

Definition get {Σ} : State Σ Σ := λ s, (s, s).
Definition modify {Σ} (f : Σ → Σ) : State Σ unit := λ s, (tt, f s).

(** ** Rows of the tables (README, "データベース設計") *)

Module Child.
(** [children]: the columns the pages select.  [points] is read through
    [points ?? 0] everywhere, so the column is nullable here. *)
Record t := { id : string; name : string; points : option Z }.
Definition set_points (p : option Z) (c : t) : t :=
  {| id := id c; name := name c; points := p |}.
(** update({ points }).eq("id", i) on a list of rows *)
Definition update_points (i : string) (p : Z) (rows : list t) : list t :=
  (λ c, if decide (id c = i) then set_points (Some p) c else c) <$> rows.
End Child.

Module Task.
Record t := {
  id : string;
  user_id : string;
  child_id : string;
  title : string;
  category : string;
  point : Z;
  is_done : bool
}.
Definition set_is_done (b : bool) (x : t) : t :=
  {| id := id x; user_id := user_id x; child_id := child_id x;
     title := title x; category := category x; point := point x;
     is_done := b |}.
(** prev.map((t) => (t.id === i ? { ...t, is_done: b } : t)) *)
Definition update_is_done (i : string) (b : bool) (rows : list t) : list t :=
  (λ x, if decide (id x = i) then set_is_done b x else x) <$> rows.
End Task.

Module PointTransaction.
(** [point_transactions]: the columns the pages insert; [points] is the
    signed delta and [type] the transaction kind. *)
Record t := {
  child_id : string;
  reward_redemption_id : option Z;
  type : string;
  points : Z;
  note : option string
}.
End PointTransaction.

Module Reward.
Record t := {
  id : Z;
  parent_id : string;
  title : string;
  required_points : Z;
  is_active : bool;
  child_id : option string
}.
End Reward.

(** type RewardRedemptionStatus = "pending" | "approved" | "rejected" *)
Inductive RewardRedemptionStatus := pending | approved | rejected.

Global Instance RewardRedemptionStatus_eq_dec : EqDecision RewardRedemptionStatus.
Proof. solve_decision. Defined.

Module RewardRedemption.
(** [requested_at] is a timestamp, an integer count of time units. *)
Record t := {
  id : Z;
  child_id : string;
  reward_id : Z;
  status : RewardRedemptionStatus;
  requested_at : Z;
  handled_by : option string;
  handled_at : option Z
}.
Definition set_status (s : RewardRedemptionStatus) (r : t) : t :=
  {| id := id r; child_id := child_id r; reward_id := reward_id r;
     status := s; requested_at := requested_at r;
     handled_by := handled_by r; handled_at := handled_at r |}.
(** update({ status }).eq("id", i) on a list of rows *)
Definition update_status (i : Z) (s : RewardRedemptionStatus) (rows : list t) : list t :=
  (λ r, if decide (id r = i) then set_status s r else r) <$> rows.
End RewardRedemption.

Module RewardRedemptionWithReward.
(** type RewardRedemptionWithReward = RewardRedemption & { rewards : Reward } *)
Record t := { row : RewardRedemption.t; rewards : Reward.t }.
Definition id (r : t) : Z := RewardRedemption.id (row r).
Definition child_id (r : t) : string := RewardRedemption.child_id (row r).
End RewardRedemptionWithReward.

(** ** The backend: tables, session, and calls that may fail *)

Module Server.

Record PostgrestError := { message : string }.

Record Db := {
  children : list Child.t;
  tasks : list Task.t;
  point_transactions : list PointTransaction.t;
  rewards : list Reward.t;
  reward_redemptions : list RewardRedemption.t;
  reward_redemptions_id_seq : Z;   (* identity column of reward_redemptions *)
  now : Z                          (* the store's clock, default of requested_at *)
}.

Definition set_children (v : list Child.t) (d : Db) : Db :=
  {| children := v; tasks := tasks d;
     point_transactions := point_transactions d; rewards := rewards d;
     reward_redemptions := reward_redemptions d;
     reward_redemptions_id_seq := reward_redemptions_id_seq d; now := now d |}.
Definition set_tasks (v : list Task.t) (d : Db) : Db :=
  {| children := children d; tasks := v;
     point_transactions := point_transactions d; rewards := rewards d;
     reward_redemptions := reward_redemptions d;
     reward_redemptions_id_seq := reward_redemptions_id_seq d; now := now d |}.
Definition set_point_transactions (v : list PointTransaction.t) (d : Db) : Db :=
  {| children := children d; tasks := tasks d;
     point_transactions := v; rewards := rewards d;
     reward_redemptions := reward_redemptions d;
     reward_redemptions_id_seq := reward_redemptions_id_seq d; now := now d |}.
Definition set_reward_redemptions (v : list RewardRedemption.t) (d : Db) : Db :=
  {| children := children d; tasks := tasks d;
     point_transactions := point_transactions d; rewards := rewards d;
     reward_redemptions := v;
     reward_redemptions_id_seq := reward_redemptions_id_seq d; now := now d |}.
Definition set_reward_redemptions_id_seq (n : Z) (d : Db) : Db :=
  {| children := children d; tasks := tasks d;
     point_transactions := point_transactions d; rewards := rewards d;
     reward_redemptions := reward_redemptions d;
     reward_redemptions_id_seq := n; now := now d |}.

(** [faults] scripts the coming backend calls: the head decides the next
    call, [Some e] makes it fail with [e] and no effect, [None] lets it
    run; once the script is used up every call runs.  [user] is what
    [supabase.auth.getUser()] yields. *)
Record t := {
  db : Db;
  faults : list (option PostgrestError);
  user : option string
}.

Definition set_db (d : Db) (s : t) : t :=
  {| db := d; faults := faults s; user := user s |}.
Definition set_faults (f : list (option PostgrestError)) (s : t) : t :=
  {| db := db s; faults := f; user := user s |}.

(** A query is a function of the tables that answers with data or with an
    error of its own (as [.single()] does). *)
Definition Query (A : Type) : Type := Db → (PostgrestError + A) * Db.

Definition request {A} (q : Query A) : State t (PostgrestError + A) := λ s,
  match faults s with
  | Some e :: fs => (inl e, set_faults fs s)
  | None :: fs => let '(r, d) := q (db s) in (r, set_db d (set_faults fs s))
  | [] => let '(r, d) := q (db s) in (r, set_db d s)
  end.

(** Whether the [n]-th coming call (from 0) runs, by the fault script. *)
Definition runs (n : nat) (s : t) : bool :=
  match faults s !! n with
  | Some (Some _) => false
  | _ => true
  end.

(** supabase.auth.getUser() *)
Definition getUser : State t (option string) := λ s, (user s, s).

(** from("children").select("points").eq("id", id).single() *)
Definition children_select_points_single (id : string) : Query (option Z) := λ d,
  match filter (λ c, Child.id c = id) (children d) with
  | [c] => (inr (Child.points c), d)
  | _ => (inl {| message := "JSON object requested, multiple (or no) rows returned" |}, d)
  end.

(** from("children").update({ points }).eq("id", id) *)
Definition children_update_points (id : string) (points : Z) : Query unit := λ d,
  (inr tt, set_children (Child.update_points id points (children d)) d).

(** from("point_transactions").insert(row) *)
Definition point_transactions_insert (row : PointTransaction.t) : Query unit := λ d,
  (inr tt, set_point_transactions (point_transactions d ++ [row]) d).

(** from("reward_redemptions").update({ status }).eq("id", id) *)
Definition reward_redemptions_update_status
    (id : Z) (s : RewardRedemptionStatus) : Query unit := λ d,
  (inr tt,
   set_reward_redemptions (RewardRedemption.update_status id s (reward_redemptions d)) d).

(** Modelled from the spec: the stored procedure [toggle_task_done] is
    called by the child page but its SQL is not part of the sources.  By
    the call site ("① タスク完了状態を更新") and the spec's
    [writeTaskDone(taskId, done)] it stores [p_is_done] as the done flag
    of the task [p_task_id] and touches nothing else. *)
Definition toggle_task_done (p_task_id : string) (p_is_done : bool) : Query unit := λ d,
  (inr tt, set_tasks (Task.update_is_done p_task_id p_is_done (tasks d)) d).

(** from("reward_redemptions").insert({ child_id, reward_id, status }):
    the identity column and [requested_at] take their defaults. *)
Definition reward_redemptions_insert
    (child_id : string) (reward_id : Z) (s : RewardRedemptionStatus) : Query unit := λ d,
  (inr tt,
   set_reward_redemptions_id_seq (reward_redemptions_id_seq d + 1)
     (set_reward_redemptions
        (reward_redemptions d ++
           [ {| RewardRedemption.id := reward_redemptions_id_seq d;
                RewardRedemption.child_id := child_id;
                RewardRedemption.reward_id := reward_id;
                RewardRedemption.status := s;
                RewardRedemption.requested_at := now d;
                RewardRedemption.handled_by := None;
                RewardRedemption.handled_at := None |} ]) d)).

Definition is_pending (r : RewardRedemption.t) : Prop :=
  RewardRedemption.status r = pending.

Global Instance is_pending_dec r : Decision (is_pending r).
Proof. unfold is_pending. apply _. Defined.

(** .order("requested_at", { ascending: true }) *)
Definition requested_le (a b : RewardRedemption.t) : Prop :=
  RewardRedemption.requested_at a ≤ RewardRedemption.requested_at b.

Global Instance requested_le_dec a b : Decision (requested_le a b).
Proof. unfold requested_le. apply _. Defined.

(** from("reward_redemptions").select(...).eq("status", "pending")
      .order("requested_at", { ascending: true }) *)
Definition reward_redemptions_select_pending_ordered : Query (list RewardRedemption.t) := λ d,
  (inr (merge_sort requested_le (filter is_pending (reward_redemptions d))), d).

(** The embedded resource [rewards] of a redemption row: the reward its
    foreign key [reward_id] points at. *)
Definition reward_of (d : Db) (r : RewardRedemption.t) : option Reward.t :=
  head (filter (λ x, Reward.id x = RewardRedemption.reward_id r) (rewards d)).

(** from("reward_redemptions").select(all columns, rewards embedded)
      .eq("status", "pending");
    [reward_id] is a required foreign key, a row without its reward does
    not occur and is left out here. *)
Definition reward_redemptions_select_pending_with_rewards
    : Query (list RewardRedemptionWithReward.t) := λ d,
  (inr (omap (λ r, (λ x, {| RewardRedemptionWithReward.row := r;
                            RewardRedemptionWithReward.rewards := x |}) <$> reward_of d r)
             (filter is_pending (reward_redemptions d))), d).

(** The sum of the signed deltas of the ledger rows of one child. *)
Definition ledger_sum (child : string) (l : list PointTransaction.t) : Z :=
  foldr (λ e acc, PointTransaction.points e + acc) 0
        (filter (λ e, PointTransaction.child_id e = child) l).

End Server.

(** ** The child's task page (src/app/child/page.tsx) *)

Module ChildPage.

(** React state of the page: the selected child, the loaded tasks and the
    child id -> points map. *)
Record World := {
  server : Server.t;
  selectedChildId : string;
  tasks : list Task.t;
  pointsMap : gmap string Z
}.

Definition set_server (s : Server.t) (w : World) : World :=
  {| server := s; selectedChildId := selectedChildId w; tasks := tasks w;
     pointsMap := pointsMap w |}.
Definition set_tasks (v : list Task.t) (w : World) : World :=
  {| server := server w; selectedChildId := selectedChildId w; tasks := v;
     pointsMap := pointsMap w |}.
Definition set_pointsMap (v : gmap string Z) (w : World) : World :=
  {| server := server w; selectedChildId := selectedChildId w; tasks := tasks w;
     pointsMap := v |}.

Definition backend {A} (m : State Server.t A) : State World A := λ w,
  let '(a, s) := m (server w) in (a, set_server s w).

(** The way [toggleDone] returned; every early [return] of the source is
    one constructor, named after the message the page shows there. *)
Inductive Exit :=
| NoChildSelected                                   (* "だれの がめんにする？ えらんでね" *)
| OtherChildsTask                                   (* "いま えらんでる こどもの やることだけ さわれるよ" *)
| NotSignedIn                                       (* if (!user) return; *)
| UpdateTaskFailed (e : Server.PostgrestError)      (* "やることの こうしんに しっぱいしたよ" *)
| GetPointFailed (e : Server.PostgrestError)        (* "ぽいんとが みれなかったよ" *)
| UpdatePointFailed (e : Server.PostgrestError)     (* "ぽいんとの こうしんに しっぱいしたよ" *)
| TransactionFailed (e : Server.PostgrestError)     (* "りれきの ほぞんに しっぱいしたよ" *)
| Toggled (nextDone : bool) (delta newPoints : Z).  (* "できた！" / "やりなおしたよ" *)

Definition nextDone (task : Task.t) : bool := negb (Task.is_done task).
Definition delta (task : Task.t) : Z :=
  if nextDone task then Task.point task else - Task.point task.

(** The ledger row of step ④. *)
Definition transaction (child : string) (task : Task.t) : PointTransaction.t :=
  {| PointTransaction.child_id := child;
     PointTransaction.reward_redemption_id := None;
     PointTransaction.type := if nextDone task then "task_done" else "task_undo";
     PointTransaction.points := delta task;
     PointTransaction.note :=
       Some (if nextDone task then "できた：" +:+ Task.title task
             else "やりなおし：" +:+ Task.title task) |}.

Definition toggleDone (task : Task.t) : State World Exit :=
  w ← get;
  if decide (selectedChildId w = "") then mret NoChildSelected
  else if decide (Task.child_id task ≠ selectedChildId w) then mret OtherChildsTask
  else
    user ← backend Server.getUser;
    match user with
    | None => mret NotSignedIn
    | Some _ =>
      (* ① *)
      updateTask ← backend (Server.request
                      (Server.toggle_task_done (Task.id task) (nextDone task)));
      match updateTask with
      | inl e => mret (UpdateTaskFailed e)
      | inr _ =>
        (* ② *)
        childRow ← backend (Server.request
                      (Server.children_select_points_single (selectedChildId w)));
        match childRow with
        | inl e => mret (GetPointFailed e)
        | inr points =>
          let newPoints := Z.max 0 (default 0 points + delta task) in
          (* ③ *)
          updatePoint ← backend (Server.request
                           (Server.children_update_points (selectedChildId w) newPoints));
          match updatePoint with
          | inl e => mret (UpdatePointFailed e)
          | inr _ =>
            (* ④ *)
            tx ← backend (Server.request
                    (Server.point_transactions_insert
                       (transaction (selectedChildId w) task)));
            match tx with
            | inl e => mret (TransactionFailed e)
            | inr _ =>
              modify (λ w', set_tasks
                (Task.update_is_done (Task.id task) (nextDone task) (tasks w')) w');;
              modify (λ w', set_pointsMap
                (<[selectedChildId w := newPoints]> (pointsMap w')) w');;
              mret (Toggled (nextDone task) (delta task) newPoints)
            end
          end
        end
      end
    end.

End ChildPage.

(** ** The child's rewards page: requesting a redemption *)

Module ChildRewardsPage.

Record World := {
  server : Server.t;
  selectedChildId : string;
  pointsMap : gmap string Z
}.

Definition set_server (s : Server.t) (w : World) : World :=
  {| server := s; selectedChildId := selectedChildId w; pointsMap := pointsMap w |}.

Definition backend {A} (m : State Server.t A) : State World A := λ w,
  let '(a, s) := m (server w) in (a, set_server s w).

Inductive Exit :=
| NoChildSelected                              (* "だれの がめんにする？ えらんでね" *)
| NotEnoughPoints                              (* "ぽいんとが たりないよ" *)
| InsertFailed (e : Server.PostgrestError)     (* "こうかんに しっぱいしたよ" *)
| Requested.                                   (* "こうかん したよ！" *)

(** pointsMap[selectedChildId] ?? 0 *)
Definition current (w : World) : Z := default 0 (pointsMap w !! selectedChildId w).

Definition exchangeReward (reward : Reward.t) : State World Exit :=
  w ← get;
  if decide (selectedChildId w = "") then mret NoChildSelected
  else if decide (current w < Reward.required_points reward) then mret NotEnoughPoints
  else
    ins ← backend (Server.request
              (Server.reward_redemptions_insert
                 (selectedChildId w) (Reward.id reward) pending));
    match ins with
    | inl e => mret (InsertFailed e)
    | inr _ => mret Requested
    end.

End ChildRewardsPage.

(** ** The simple approval page (src/app/parent/reward-requests/page.tsx) *)

Module RewardRequestsPage.

Record World := {
  server : Server.t;
  list : list RewardRedemptionWithReward.t
}.

Definition set_server (s : Server.t) (w : World) : World :=
  {| server := s; list := list w |}.
Definition setList (l : Datatypes.list RewardRedemptionWithReward.t) (w : World) : World :=
  {| server := server w; list := l |}.

Definition backend {A} (m : State Server.t A) : State World A := λ w,
  let '(a, s) := m (server w) in (a, set_server s w).

(** The ledger row of step ②. *)
Definition spend (r : RewardRedemptionWithReward.t) : PointTransaction.t :=
  {| PointTransaction.child_id := RewardRedemptionWithReward.child_id r;
     PointTransaction.reward_redemption_id := Some (RewardRedemptionWithReward.id r);
     PointTransaction.type := "spend";
     PointTransaction.points :=
       - Reward.required_points (RewardRedemptionWithReward.rewards r);
     PointTransaction.note := None |}.

(** The three awaited calls; the results of ① and ② are dropped, and of
    ③ only [data] is read ([data || []]). *)
Definition approve (r : RewardRedemptionWithReward.t) : State World unit :=
  (* ① *)
  _ ← backend (Server.request
         (Server.reward_redemptions_update_status
            (RewardRedemptionWithReward.id r) approved));
  (* ② *)
  _ ← backend (Server.request (Server.point_transactions_insert (spend r)));
  (* ③ *)
  res ← backend (Server.request Server.reward_redemptions_select_pending_with_rewards);
  modify (setList (match res with inr data => data | inl _ => [] end)).

End RewardRequestsPage.

(** ** The approval page backed by stored procedures
       (src/app/parent/redemptions/page.tsx) *)

Module ParentRedemptionsPage.

(** type Redemption of the page: the selected columns with the two
    embedded resources. *)
Record Redemption := {
  id : Z;
  status : RewardRedemptionStatus;
  requested_at : Z;
  child_id : string;
  children : option string;          (* { name } | null *)
  rewards : option (string * Z)      (* { title, required_points } | null *)
}.

Record World := {
  server : Server.t;
  loading : bool;
  items : list Redemption;
  selectedChildId : string
}.

Definition set_server (s : Server.t) (w : World) : World :=
  {| server := s; loading := loading w; items := items w;
     selectedChildId := selectedChildId w |}.
Definition setLoading (b : bool) (w : World) : World :=
  {| server := server w; loading := b; items := items w;
     selectedChildId := selectedChildId w |}.
Definition setItems (l : list Redemption) (w : World) : World :=
  {| server := server w; loading := loading w; items := l;
     selectedChildId := selectedChildId w |}.

Definition backend {A} (m : State Server.t A) : State World A := λ w,
  let '(a, s) := m (server w) in (a, set_server s w).

(** The select list of [fetchRows] applied to one row. *)
Definition select_columns (d : Server.Db) (r : RewardRedemption.t) : Redemption :=
  {| id := RewardRedemption.id r;
     status := RewardRedemption.status r;
     requested_at := RewardRedemption.requested_at r;
     child_id := RewardRedemption.child_id r;
     children :=
       Child.name <$>
         head (filter (λ c, Child.id c = RewardRedemption.child_id r) (Server.children d));
     rewards :=
       (λ x, (Reward.title x, Reward.required_points x)) <$> Server.reward_of d r |}.

Definition pending_rows : Server.Query (list Redemption) := λ d,
  let '(res, d') := Server.reward_redemptions_select_pending_ordered d in
  (match res with
   | inl e => inl e
   | inr data => inr (select_columns d <$> data)
   end, d').

(** [if (error) throw error] is the left injection. *)
Definition fetchRows : State World (Server.PostgrestError + list Redemption) :=
  backend (Server.request pending_rows).

Definition reload : State World unit :=
  modify (setLoading true);;
  rows ← fetchRows;
  match rows with
  | inr rows => modify (setItems rows)
  | inl _ => mret tt
  end;;
  modify (setLoading false).

Definition visibleItems (w : World) : list Redemption :=
  if decide (selectedChildId w = "all") then items w
  else filter (λ r, child_id r = selectedChildId w) (items w).

Section StoredProcedures.

(** The two stored procedures are not part of the sources.  A call runs
    in one transaction of the store: it either fails with an error and
    no effect, or yields the next tables. *)
Variable approve_reward_redemption : Z → Server.Db → Server.PostgrestError + Server.Db.
Variable reject_reward_redemption : Z → Server.Db → Server.PostgrestError + Server.Db.

Definition rpc (proc : Z → Server.Db → Server.PostgrestError + Server.Db)
    (p_redemption_id : Z) : Server.Query unit := λ d,
  match proc p_redemption_id d with
  | inl e => (inl e, d)
  | inr d' => (inr tt, d')
  end.

(** [true] when the page showed its success notification. *)
Definition approve (id : Z) : State World bool :=
  res ← backend (Server.request (rpc approve_reward_redemption id));
  match res with
  | inl _ => mret false
  | inr _ => reload;; mret true
  end.

Definition reject (id : Z) : State World bool :=
  res ← backend (Server.request (rpc reject_reward_redemption id));
  match res with
  | inl _ => mret false
  | inr _ => reload;; mret true
  end.

End StoredProcedures.

End ParentRedemptionsPage.

(** ** The stored procedures of the approval page, as the spec gives them *)

Module StoredProcedure.

(** An error raised by a procedure, named by its kind. *)
Definition error (kind : string) : Server.PostgrestError :=
  {| Server.message := kind |}.

(** Modelled from the spec: [Ledger.applyDelta] (section 4.1), the SQL of
    which is not part of the sources: it reads the balance of the child,
    fails with InsufficientBalance and no mutation when balance + delta is
    negative, and else writes the new balance and appends the entry, all
    in one step.  A child that does not exist is NotFound (section 7). *)
Definition applyDelta (childId : string) (delta : Z) (entry : PointTransaction.t)
    (d : Server.Db) : Server.PostgrestError + Server.Db :=
  match filter (λ c, Child.id c = childId) (Server.children d) with
  | [] => inl (error "NotFound")
  | c :: _ =>
      let next := default 0 (Child.points c) + delta in
      if decide (next < 0) then inl (error "InsufficientBalance")
      else inr (Server.set_point_transactions (Server.point_transactions d ++ [entry])
                  (Server.set_children
                     (Child.update_points childId next (Server.children d)) d))
  end.

(** Modelled from the spec: step 1 of [approve] and [reject] (section
    4.3): load the redemption, NotFound if it is missing, InvalidState if
    its status is not pending. *)
Definition load_pending (redemptionId : Z) (d : Server.Db)
    : Server.PostgrestError + RewardRedemption.t :=
  match filter (λ r, RewardRedemption.id r = redemptionId) (Server.reward_redemptions d) with
  | [] => inl (error "NotFound")
  | r :: _ =>
      if decide (RewardRedemption.status r = pending) then inr r
      else inl (error "InvalidState")
  end.

(** Modelled from the spec: status, handledBy and handledAt as a handled
    redemption carries them (section 4.3, step 5). *)
Definition handled (s : RewardRedemptionStatus) (parentActor : string) (at_ : Z)
    (r : RewardRedemption.t) : RewardRedemption.t :=
  {| RewardRedemption.id := RewardRedemption.id r;
     RewardRedemption.child_id := RewardRedemption.child_id r;
     RewardRedemption.reward_id := RewardRedemption.reward_id r;
     RewardRedemption.status := s;
     RewardRedemption.requested_at := RewardRedemption.requested_at r;
     RewardRedemption.handled_by := Some parentActor;
     RewardRedemption.handled_at := Some at_ |}.

Definition handle (redemptionId : Z) (s : RewardRedemptionStatus) (parentActor : string)
    (d : Server.Db) : Server.Db :=
  Server.set_reward_redemptions
    ((λ r, if decide (RewardRedemption.id r = redemptionId)
           then handled s parentActor (Server.now d) r else r)
       <$> Server.reward_redemptions d) d.

(** The ledger entry of an approval. *)
Definition redemption_spend (r : RewardRedemption.t) (reward : Reward.t)
    : PointTransaction.t :=
  {| PointTransaction.child_id := RewardRedemption.child_id r;
     PointTransaction.reward_redemption_id := Some (RewardRedemption.id r);
     PointTransaction.type := "redemption_spend";
     PointTransaction.points := - Reward.required_points reward;
     PointTransaction.note := None |}.

(** Modelled from the spec: the stored procedure
    [approve_reward_redemption], called by the approval page and absent
    from the sources, as [approve(redemptionId, parentActor)] of section
    4.3: load the pending redemption, load the reward, apply the ledger
    delta, and on success set status, handledBy and handledAt. *)
Definition approve_reward_redemption (parentActor : string) (p_redemption_id : Z)
    (d : Server.Db) : Server.PostgrestError + Server.Db :=
  match load_pending p_redemption_id d with
  | inl e => inl e
  | inr r =>
      match Server.reward_of d r with
      | None => inl (error "NotFound")
      | Some reward =>
          match applyDelta (RewardRedemption.child_id r)
                  (- Reward.required_points reward) (redemption_spend r reward) d with
          | inl e => inl e
          | inr d1 => inr (handle p_redemption_id approved parentActor d1)
          end
      end
  end.

(** Modelled from the spec: the stored procedure
    [reject_reward_redemption], absent from the sources, as
    [reject(redemptionId, parentActor)] of section 4.3: the preconditions
    of approve, then status rejected, handledBy and handledAt, and no
    ledger entry. *)
Definition reject_reward_redemption (parentActor : string) (p_redemption_id : Z)
    (d : Server.Db) : Server.PostgrestError + Server.Db :=
  match load_pending p_redemption_id d with
  | inl e => inl e
  | inr _ => inr (handle p_redemption_id rejected parentActor d)
  end.

End StoredProcedure.

(** ** Ledger predicates and committed operations *)

Module Ledger.

(** What a completed [toggleDone] leaves in the store: the three writes
    ①, ③ and ④ applied to the tables, [c] being the child row read by ②. *)
Definition toggled (child : string) (task : Task.t) (c : Child.t)
    (d : Server.Db) : Server.Db :=
  Server.set_point_transactions
    (Server.point_transactions d ++ [ChildPage.transaction child task])
    (Server.set_children
       (Child.update_points child
          (Z.max 0 (default 0 (Child.points c) + ChildPage.delta task))
          (Server.children d))
       (Server.set_tasks
          (Task.update_is_done (Task.id task) (ChildPage.nextDone task)
             (Server.tasks d)) d)).

(** The cached balance of every child equals the sum of its ledger rows. *)
Definition balanced (d : Server.Db) : Prop :=
  Forall (λ c, default 0 (Child.points c)
               = Server.ledger_sum (Child.id c) (Server.point_transactions d))
         (Server.children d).

Global Instance balanced_dec d : Decision (balanced d).
Proof. unfold balanced. apply _. Defined.

(** The debit or credit of the toggle stays at or above zero for the
    selected child, so that [Math.max(0, ...)] changes nothing. *)
Definition unclamped (task : Task.t) (w : ChildPage.World) : Prop :=
  Forall (λ c, Child.id c = ChildPage.selectedChildId w →
               0 ≤ default 0 (Child.points c) + ChildPage.delta task)
         (Server.children (Server.db (ChildPage.server w))).

Global Instance unclamped_dec task w : Decision (unclamped task w).
Proof. unfold unclamped. apply _. Defined.

(** The cached balance of every child is at least the sum of its ledger
    rows. *)
Definition covered (d : Server.Db) : Prop :=
  Forall (λ c, Server.ledger_sum (Child.id c) (Server.point_transactions d)
               ≤ default 0 (Child.points c))
         (Server.children d).

Global Instance covered_dec d : Decision (covered d).
Proof. unfold covered. apply _. Defined.

(** One operation on the store as a page performs it: a toggle that ran
    to its end and that [allowed] admits, or a redemption request
    (whatever its outcome).  The page state around the store is
    arbitrary. *)
Inductive step (allowed : Task.t → ChildPage.World → Prop)
    : Server.Db → Server.Db → Prop :=
| step_toggle task w nd dl np w' :
    ChildPage.toggleDone task w = (ChildPage.Toggled nd dl np, w') →
    allowed task w →
    step allowed (Server.db (ChildPage.server w)) (Server.db (ChildPage.server w'))
| step_request reward w e w' :
    ChildRewardsPage.exchangeReward reward w = (e, w') →
    step allowed (Server.db (ChildRewardsPage.server w))
                 (Server.db (ChildRewardsPage.server w')).

(** Toggles that stay clear of the clamp, and all toggles. *)
Definition committed : Server.Db → Server.Db → Prop := step unclamped.
Definition performed : Server.Db → Server.Db → Prop := step (λ _ _, True).

(** The ledger rows that reference one redemption. *)
Definition spends (rid : Z) (l : list PointTransaction.t) : list PointTransaction.t :=
  filter (λ e, PointTransaction.reward_redemption_id e = Some rid) l.

(** At most one spend row per redemption, and one exactly when the
    redemption is approved. *)
Definition spend_consistent (d : Server.Db) : Prop :=
  Forall (λ r, (length (spends (RewardRedemption.id r) (Server.point_transactions d)) ≤ 1)%nat
               ∧ (RewardRedemption.status r = approved
                  ↔ spends (RewardRedemption.id r) (Server.point_transactions d) ≠ []))
         (Server.reward_redemptions d).

Global Instance spend_consistent_dec d : Decision (spend_consistent d).
Proof. unfold spend_consistent. apply _. Defined.

End Ledger.

(** ** Concrete stores and page states *)

Module Scenario.

Definition taro : Child.t :=
  {| Child.id := "c1"; Child.name := "Taro"; Child.points := Some 5 |}.

(** A done task of a child who holds 5 points; the task earned 5 points
    when it was done and is worth 10 since its parent edited it. *)
Definition homework : Task.t :=
  {| Task.id := "t1"; Task.user_id := "u1"; Task.child_id := "c1";
     Task.title := "homework"; Task.category := "study";
     Task.point := 10; Task.is_done := true |}.

(** A task not yet done, worth 10 points. *)
Definition dishes : Task.t :=
  {| Task.id := "t2"; Task.user_id := "u1"; Task.child_id := "c1";
     Task.title := "dishes"; Task.category := "chore";
     Task.point := 10; Task.is_done := false |}.

Definition earned5 : PointTransaction.t :=
  {| PointTransaction.child_id := "c1";
     PointTransaction.reward_redemption_id := None;
     PointTransaction.type := "task_done";
     PointTransaction.points := 5;
     PointTransaction.note := Some "できた：homework" |}.

Definition game : Reward.t :=
  {| Reward.id := 1; Reward.parent_id := "u1"; Reward.title := "game";
     Reward.required_points := 20; Reward.is_active := true;
     Reward.child_id := Some "c1" |}.

Definition sticker : Reward.t :=
  {| Reward.id := 2; Reward.parent_id := "u1"; Reward.title := "sticker";
     Reward.required_points := 3; Reward.is_active := true;
     Reward.child_id := Some "c1" |}.

Definition request (id : Z) (s : RewardRedemptionStatus) (at_ : Z) : RewardRedemption.t :=
  {| RewardRedemption.id := id; RewardRedemption.child_id := "c1";
     RewardRedemption.reward_id := 1; RewardRedemption.status := s;
     RewardRedemption.requested_at := at_;
     RewardRedemption.handled_by := None; RewardRedemption.handled_at := None |}.

(** Balance 5 backed by one ledger row of +5; one pending request for
    the 20-point reward. *)
Definition db : Server.Db :=
  {| Server.children := [taro];
     Server.tasks := [homework; dishes];
     Server.point_transactions := [earned5];
     Server.rewards := [game; sticker];
     Server.reward_redemptions := [request 7 pending 50];
     Server.reward_redemptions_id_seq := 8;
     Server.now := 100 |}.

Definition online (faults : list (option Server.PostgrestError)) : Server.t :=
  {| Server.db := db; Server.faults := faults; Server.user := Some "u1" |}.

Definition timeout : Server.PostgrestError := {| Server.message := "timeout" |}.

Definition childPage (faults : list (option Server.PostgrestError)) : ChildPage.World :=
  {| ChildPage.server := online faults; ChildPage.selectedChildId := "c1";
     ChildPage.tasks := [homework; dishes]; ChildPage.pointsMap := {[ "c1" := 5 ]} |}.

Definition rewardsPage (faults : list (option Server.PostgrestError))
    : ChildRewardsPage.World :=
  {| ChildRewardsPage.server := online faults;
     ChildRewardsPage.selectedChildId := "c1";
     ChildRewardsPage.pointsMap := {[ "c1" := 5 ]} |}.

Definition pendingGame : RewardRedemptionWithReward.t :=
  {| RewardRedemptionWithReward.row := request 7 pending 50;
     RewardRedemptionWithReward.rewards := game |}.

Definition requestsPage (faults : list (option Server.PostgrestError))
    : RewardRequestsPage.World :=
  {| RewardRequestsPage.server := online faults;
     RewardRequestsPage.list := [pendingGame] |}.

(** The same page showing a stale row: the store already holds request 7
    as rejected. *)
Definition handledRequestsPage : RewardRequestsPage.World :=
  {| RewardRequestsPage.server :=
       {| Server.db := Server.set_reward_redemptions [request 7 rejected 50] db;
          Server.faults := []; Server.user := Some "u1" |};
     RewardRequestsPage.list := [pendingGame] |}.

(** The simple page after request 7 was approved once. *)
Definition approvedOnce : RewardRequestsPage.World :=
  (RewardRequestsPage.approve pendingGame (requestsPage [])).2.

(** Three requests out of time order, one of them already handled. *)
Definition queue : list RewardRedemption.t :=
  [request 3 pending 30; request 1 approved 10; request 2 pending 20].

Definition redemptionsPage (faults : list (option Server.PostgrestError))
    : ParentRedemptionsPage.World :=
  {| ParentRedemptionsPage.server :=
       {| Server.db := Server.set_reward_redemptions queue db;
          Server.faults := faults; Server.user := Some "u1" |};
     ParentRedemptionsPage.loading := false;
     ParentRedemptionsPage.items := [];
     ParentRedemptionsPage.selectedChildId := "all" |}.

(** The approval page over a store with one pending request for the
    3-point sticker, the child holding 5 points. *)
Definition stickerRequest : RewardRedemption.t :=
  {| RewardRedemption.id := 9; RewardRedemption.child_id := "c1";
     RewardRedemption.reward_id := 2; RewardRedemption.status := pending;
     RewardRedemption.requested_at := 60;
     RewardRedemption.handled_by := None; RewardRedemption.handled_at := None |}.

Definition stickerPage : ParentRedemptionsPage.World :=
  {| ParentRedemptionsPage.server :=
       {| Server.db := Server.set_reward_redemptions [stickerRequest] db;
          Server.faults := []; Server.user := Some "u1" |};
     ParentRedemptionsPage.loading := false;
     ParentRedemptionsPage.items := [];
     ParentRedemptionsPage.selectedChildId := "all" |}.

(** A stored procedure that turns every call down. *)
Definition refusing (e : Server.PostgrestError)
    : Z → Server.Db → Server.PostgrestError + Server.Db := λ _ _, inl e.

End Scenario.

(** ** Array.prototype.sort *)

Module Array.

(** [arr.sort(compareFn)] is a stable sort: elements that compare equal
    keep their order.  Each element, taken from the right, is put in front
    of the first element it does not have to follow. *)
Fixpoint insert {A} (compareFn : A → A → Z) (x : A) (l : list A) : list A :=
  match l with
  | [] => [x]
  | y :: l' =>
      if decide (compareFn x y ≤ 0) then x :: y :: l'
      else y :: insert compareFn x l'
  end.

Definition sort {A} (compareFn : A → A → Z) (l : list A) : list A :=
  foldr (insert compareFn) [] l.

End Array.

(** ** Derived state of the child's task page (src/app/child/page.tsx) *)

Module ChildPageView.

(** Number(b) *)
Definition Number (b : bool) : Z := if b then 1 else 0.

(** const pm = {}; list.forEach((c) => (pm[c.id] = c.points ?? 0)) *)
Definition pm (list : list Child.t) : gmap string Z :=
  foldl (λ m c, <[Child.id c := default 0 (Child.points c)]> m) ∅ list.

Definition currentPoints (w : ChildPage.World) : Z :=
  if decide (ChildPage.selectedChildId w = "") then 0
  else default 0 (ChildPage.pointsMap w !! ChildPage.selectedChildId w).

Definition visibleTasks (w : ChildPage.World) : list Task.t :=
  if decide (ChildPage.selectedChildId w = "") then []
  else filter (λ t, Task.child_id t = ChildPage.selectedChildId w) (ChildPage.tasks w).

Definition sortedTasks (w : ChildPage.World) : list Task.t :=
  Array.sort (λ a b, Number (Task.is_done a) - Number (Task.is_done b))
             (visibleTasks w).

(** onChange={(id) => setSelectedChildId(id)} *)
Definition setSelectedChildId (id : string) (w : ChildPage.World) : ChildPage.World :=
  {| ChildPage.server := ChildPage.server w; ChildPage.selectedChildId := id;
     ChildPage.tasks := ChildPage.tasks w; ChildPage.pointsMap := ChildPage.pointsMap w |}.

End ChildPageView.

(** ** Derived state of the child's rewards page *)

Module ChildRewardsView.

(** rewards.filter((r) => r.child_id === selectedChildId), nothing while no
    child is selected; [rewards] is the page's loaded list. *)
Definition visibleRewards (rewards : list Reward.t) (w : ChildRewardsPage.World)
    : list Reward.t :=
  if decide (ChildRewardsPage.selectedChildId w = "") then []
  else filter (λ r, Reward.child_id r = Some (ChildRewardsPage.selectedChildId w)) rewards.

(** (pointsMap[selectedChildId] ?? 0) >= r.required_points *)
Definition canExchange (r : Reward.t) (w : ChildRewardsPage.World) : bool :=
  bool_decide (Reward.required_points r ≤ ChildRewardsPage.current w).

(** Math.max(0, r.required_points - (pointsMap[selectedChildId] ?? 0)) *)
Definition remain (r : Reward.t) (w : ChildRewardsPage.World) : Z :=
  Z.max 0 (Reward.required_points r - ChildRewardsPage.current w).

End ChildRewardsView.

(** ** The child switcher (src/app/(components)/ChildSwitcher.tsx) *)

Module ChildSwitcher.

Record Child := { id : string; name : string }.

Record Props := {
  storageKey : string;
  includeAll : bool;
  allValue : string
}.

(** The component's state and the browser's localStorage. *)
Record World := {
  localStorage : gmap string string;
  loading : bool;
  children : list Child;
  value : string
}.

(** The initial selection: the saved value when there is one and it may be
    used, else "all" when offered, else the first child (or ""). *)
Definition next (p : Props) (saved : option string) (list : list Child) : string :=
  match saved with
  | Some s =>
      if decide (s ≠ "" ∧ (includeAll p = true ∨ s ≠ allValue p)) then s
      else if includeAll p then allValue p
      else default "" (id <$> head list)
  | None =>
      if includeAll p then allValue p
      else default "" (id <$> head list)
  end.

(** The effect that runs on mount, from the answer of the query for the
    children on, the component still being mounted.  The result is what
    [onChange] is called with, if it is called. *)
Definition mounted (p : Props) (response : Server.PostgrestError + list Child)
    : State World (option string) := λ w,
  match response with
  | inl _ =>
      (None, {| localStorage := localStorage w; loading := false;
                children := []; value := value w |})
  | inr list =>
      let v := next p (localStorage w !! storageKey p) list in
      (Some v, {| localStorage := localStorage w; loading := false;
                  children := list; value := v |})
  end.

(** The handler of the control: setValue, setItem, onChange. *)
Definition onSelect (p : Props) (v : string) : State World string := λ w,
  (v, {| localStorage := <[storageKey p := v]> (localStorage w);
         loading := loading w; children := children w; value := v |}).

(** The entries of the control, as (label, value). *)
Definition data (p : Props) (w : World) : list (string * string) :=
  let base := (λ c, (name c, id c)) <$> children w in
  if includeAll p then ("全員", allValue p) :: base else base.

End ChildSwitcher.

(** ** Aggregates of the dashboard (src/app/page.tsx) *)

Module DashboardPage.

Record World := {
  selectedChildId : string;
  children : list Child.t;
  tasks : list Task.t;
  pendingRedemptions : list RewardRedemption.t
}.

Definition visibleChildren (w : World) : list Child.t :=
  if decide (selectedChildId w = "all") then children w
  else filter (λ c, Child.id c = selectedChildId w) (children w).

(** visibleChildren.reduce((sum, c) => sum + (c.points ?? 0), 0) *)
Definition pointsSum (w : World) : Z :=
  foldl (λ sum c, sum + default 0 (Child.points c)) 0 (visibleChildren w).

Definition activeTasks (w : World) : list Task.t :=
  if decide (selectedChildId w = "all") then tasks w
  else filter (λ t, Task.child_id t = selectedChildId w) (tasks w).

Definition doneCount (w : World) : nat :=
  length (filter (λ t, Task.is_done t = true) (activeTasks w)).
Definition totalCount (w : World) : nat := length (activeTasks w).
Definition remainingCount (w : World) : nat :=
  length (filter (λ t, negb (Task.is_done t) = true) (activeTasks w)).
Definition todoTasks (w : World) : list Task.t :=
  filter (λ t, negb (Task.is_done t) = true) (activeTasks w).

Definition pendingCount (w : World) : nat :=
  if decide (selectedChildId w = "all") then length (pendingRedemptions w)
  else length (filter (λ r, RewardRedemption.child_id r = selectedChildId w)
                      (pendingRedemptions w)).

End DashboardPage.

(** ** Route protection (middleware.ts) *)

Module Middleware.







End Middleware.

(** * Properties *)

(** ** Running the pages *)

Ltac run_page :=
  unfold mbind, mret, State_bind, State_ret, get, modify; cbn.

Ltac unfold_queries :=
  unfold Server.request, Server.getUser, Server.toggle_task_done,
    Server.children_select_points_single, Server.children_update_points,
    Server.point_transactions_insert, Server.reward_redemptions_update_status,
    Server.reward_redemptions_insert,
    Server.reward_redemptions_select_pending_with_rewards.

(** Split on the head of the fault script. *)
Ltac next_call fs :=
  let e := fresh "e" in destruct fs as [|[e|] fs]; cbn.

Ltac one_child d :=
  let c := fresh "c" in
  let Hc := fresh "Hrow" in
  destruct (filter _ (Server.children d)) as [|c [|? ?]] eqn:Hc; cbn;
  [ try done | | try done ].

(** Every way [toggleDone] can return, with the store and the page state
    it leaves behind. *)
Lemma toggleDone_cases task w :
  let '(e, w') := ChildPage.toggleDone task w in
  let d := Server.db (ChildPage.server w) in
  let d' := Server.db (ChildPage.server w') in
  let sel := ChildPage.selectedChildId w in
  match e with
  | ChildPage.NoChildSelected | ChildPage.OtherChildsTask
  | ChildPage.NotSignedIn | ChildPage.UpdateTaskFailed _ =>
      d' = d ∧ ChildPage.tasks w' = ChildPage.tasks w
      ∧ ChildPage.pointsMap w' = ChildPage.pointsMap w
  | ChildPage.GetPointFailed _ | ChildPage.UpdatePointFailed _ =>
      d' = Server.set_tasks
             (Task.update_is_done (Task.id task) (ChildPage.nextDone task)
                (Server.tasks d)) d
      ∧ ChildPage.tasks w' = ChildPage.tasks w
      ∧ ChildPage.pointsMap w' = ChildPage.pointsMap w
  | ChildPage.TransactionFailed _ =>
      (∃ c, filter (λ c, Child.id c = sel) (Server.children d) = [c] ∧
         d' = Server.set_children
                (Child.update_points sel
                   (Z.max 0 (default 0 (Child.points c) + ChildPage.delta task))
                   (Server.children d))
                (Server.set_tasks
                   (Task.update_is_done (Task.id task) (ChildPage.nextDone task)
                      (Server.tasks d)) d))
      ∧ ChildPage.tasks w' = ChildPage.tasks w
      ∧ ChildPage.pointsMap w' = ChildPage.pointsMap w
  | ChildPage.Toggled nd dl np =>
      nd = ChildPage.nextDone task ∧ dl = ChildPage.delta task ∧
      sel ≠ "" ∧ Task.child_id task = sel ∧
      ∃ c, filter (λ c, Child.id c = sel) (Server.children d) = [c] ∧
           np = Z.max 0 (default 0 (Child.points c) + ChildPage.delta task) ∧
           d' = Ledger.toggled sel task c d ∧
           ChildPage.tasks w' =
             Task.update_is_done (Task.id task) (ChildPage.nextDone task)
               (ChildPage.tasks w) ∧
           ChildPage.pointsMap w' = <[sel := np]> (ChildPage.pointsMap w)
  end.
Proof.
  destruct w as [[d fs u] sel ts pm].
  unfold ChildPage.toggleDone, ChildPage.backend. unfold_queries. run_page.
  destruct (decide (sel = "")) as [Hsel|Hsel]; cbn; [done|].
  destruct (decide (Task.child_id task ≠ sel)) as [Hc|Hc]; cbn; [done|].
  apply dec_stable in Hc.
  destruct u; cbn; [|done].
  next_call fs; [ one_child d; eauto 12 | done | ].
  next_call fs; [ one_child d; eauto 12 | done | ].
  one_child d.
  next_call fs; [ eauto 12 | done | ].
  next_call fs; eauto 12.
Qed.

(** With the backend answering every call, a signed-in user and the task's
    child selected and stored in exactly one row, [toggleDone] runs to its
    end. *)
Lemma toggleDone_commits task w u c :
  Server.faults (ChildPage.server w) = [] →
  Server.user (ChildPage.server w) = Some u →
  ChildPage.selectedChildId w ≠ "" →
  Task.child_id task = ChildPage.selectedChildId w →
  filter (λ c, Child.id c = ChildPage.selectedChildId w)
         (Server.children (Server.db (ChildPage.server w))) = [c] →
  let np := Z.max 0 (default 0 (Child.points c) + ChildPage.delta task) in
  ChildPage.toggleDone task w =
    (ChildPage.Toggled (ChildPage.nextDone task) (ChildPage.delta task) np,
     {| ChildPage.server :=
          Server.set_db
            (Ledger.toggled (ChildPage.selectedChildId w) task c
               (Server.db (ChildPage.server w)))
            (ChildPage.server w);
        ChildPage.selectedChildId := ChildPage.selectedChildId w;
        ChildPage.tasks :=
          Task.update_is_done (Task.id task) (ChildPage.nextDone task)
            (ChildPage.tasks w);
        ChildPage.pointsMap :=
          <[ChildPage.selectedChildId w := np]> (ChildPage.pointsMap w) |}).
Proof.
  destruct w as [[d fs usr] sel ts pm]; cbn.
  intros -> -> Hsel Hchild Hrow.
  unfold ChildPage.toggleDone, ChildPage.backend. unfold_queries. run_page.
  destruct (decide (sel = "")); [done|]; cbn.
  destruct (decide (Task.child_id task ≠ sel)); [done|]; cbn.
  rewrite Hrow; cbn. done.
Qed.

(** The fault script decides where a toggle stops once the guards passed. *)
Lemma toggleDone_stops task w u c :
  Server.user (ChildPage.server w) = Some u →
  ChildPage.selectedChildId w ≠ "" →
  Task.child_id task = ChildPage.selectedChildId w →
  filter (λ c, Child.id c = ChildPage.selectedChildId w)
         (Server.children (Server.db (ChildPage.server w))) = [c] →
  (∀ e fs, Server.faults (ChildPage.server w) = None :: None :: Some e :: fs →
     (ChildPage.toggleDone task w).1 = ChildPage.UpdatePointFailed e)
  ∧ (∀ e fs, Server.faults (ChildPage.server w) = None :: None :: None :: Some e :: fs →
     (ChildPage.toggleDone task w).1 = ChildPage.TransactionFailed e).
Proof.
  destruct w as [[d fs0 usr] sel ts pm]; cbn.
  intros -> Hsel Hchild Hrow.
  split; intros e fs ->;
    unfold ChildPage.toggleDone, ChildPage.backend; unfold_queries; run_page;
    (destruct (decide (sel = "")); [done|]); cbn;
    (destruct (decide (Task.child_id task ≠ sel)); [done|]); cbn;
    rewrite Hrow; cbn; done.
Qed.

(** ** Rows under the three updates *)

Lemma filter_update_points sel p (cs : list Child.t) :
  filter (λ c, Child.id c = sel) (Child.update_points sel p cs)
  = Child.set_points (Some p) <$> filter (λ c, Child.id c = sel) cs.
Proof.
  unfold Child.update_points.
  induction cs as [|c cs IH]; [done|]. csimpl.
  destruct (decide (Child.id c = sel)) as [Heq|Hne].
  - rewrite !filter_cons_True by done. csimpl. by rewrite IH.
  - rewrite !filter_cons_False by done. done.
Qed.



Lemma update_is_done_same i b (ts : list Task.t) :
  Forall (λ x, Task.id x = i → Task.is_done x = b) ts →
  Task.update_is_done i b ts = ts.
Proof.
  unfold Task.update_is_done.
  induction 1 as [|x ts Hx _ IH]; [done|]. csimpl. rewrite IH. f_equal.
  destruct (decide (Task.id x = i)) as [Heq|Hne]; [|done].
  destruct x; cbn in *. by rewrite Hx.
Qed.

Lemma is_done_after_update i b (ts : list Task.t) :
  Forall (λ x, Task.id x = i → Task.is_done x = b) (Task.update_is_done i b ts).
Proof.
  unfold Task.update_is_done. apply Forall_fmap, Forall_true. intros x. cbn.
  destruct (decide (Task.id x = i)); cbn; [done|]. intros ?; done.
Qed.

Lemma update_points_elsewhere sel p (cs : list Child.t) :
  filter (λ c, Child.id c ≠ sel) (Child.update_points sel p cs)
  = filter (λ c, Child.id c ≠ sel) cs
  ∧ Child.id <$> Child.update_points sel p cs = Child.id <$> cs.
Proof.
  unfold Child.update_points.
  induction cs as [|c cs [IH1 IH2]]; [done|]. csimpl.
  destruct (decide (Child.id c = sel)) as [Heq|Hne].
  - rewrite !filter_cons_False by (cbn; intros ?; done). cbn. by rewrite IH1, IH2.
  - rewrite !filter_cons_True by done. by rewrite IH1, IH2.
Qed.

Lemma update_is_done_elsewhere i b (ts : list Task.t) :
  filter (λ x, Task.id x ≠ i) (Task.update_is_done i b ts)
  = filter (λ x, Task.id x ≠ i) ts
  ∧ (λ x, (Task.id x, Task.child_id x, Task.point x)) <$> Task.update_is_done i b ts
    = (λ x, (Task.id x, Task.child_id x, Task.point x)) <$> ts.
Proof.
  unfold Task.update_is_done.
  induction ts as [|x ts [IH1 IH2]]; [done|]. csimpl.
  destruct (decide (Task.id x = i)) as [Heq|Hne].
  - rewrite !filter_cons_False by (cbn; intros ?; done). cbn. by rewrite IH1, IH2.
  - rewrite !filter_cons_True by done. by rewrite IH1, IH2.
Qed.

(** The points read back after the update of one child's row. *)
Lemma points_after_update sel p (cs : list Child.t) c :
  filter (λ c, Child.id c = sel) cs = [c] →
  Child.points <$> filter (λ c, Child.id c = sel) (Child.update_points sel p cs)
  = [Some p].
Proof. intros Hrow. by rewrite filter_update_points, Hrow. Qed.

Lemma status_after_update rid s (rows : list RewardRedemption.t) :
  Forall (λ r, RewardRedemption.id r = rid → RewardRedemption.status r = s)
         (RewardRedemption.update_status rid s rows).
Proof.
  unfold RewardRedemption.update_status. apply Forall_fmap, Forall_true. intros r. cbn.
  destruct (decide (RewardRedemption.id r = rid)); cbn; [done|]. intros ?; done.
Qed.

Lemma update_status_keeps_ids rid st (rows : list RewardRedemption.t) :
  RewardRedemption.id <$> RewardRedemption.update_status rid st rows
  = RewardRedemption.id <$> rows.
Proof.
  unfold RewardRedemption.update_status. rewrite <- list_fmap_compose.
  apply list_fmap_ext. intros _ r _. cbn.
  by destruct (decide (RewardRedemption.id r = rid)).
Qed.

(** ** The ledger sum *)

Lemma ledger_sum_app child l1 l2 :
  Server.ledger_sum child (l1 ++ l2)
  = Server.ledger_sum child l1 + Server.ledger_sum child l2.
Proof.
  unfold Server.ledger_sum. rewrite filter_app.
  induction (filter _ l1) as [|e l IH]; cbn; [done|]. rewrite IH. lia.
Qed.

Lemma ledger_sum_own child e :
  PointTransaction.child_id e = child →
  Server.ledger_sum child [e] = PointTransaction.points e.
Proof.
  intros He. unfold Server.ledger_sum. rewrite filter_cons_True by done. cbn. lia.
Qed.

Lemma ledger_sum_other child e :
  PointTransaction.child_id e ≠ child → Server.ledger_sum child [e] = 0.
Proof.
  intros He. unfold Server.ledger_sum. by rewrite filter_cons_False.
Qed.

(** The second toggle of a pair undoes the delta of the first. *)
Lemma delta_flipped task :
  ChildPage.delta (Task.set_is_done (ChildPage.nextDone task) task)
  = - ChildPage.delta task.
Proof.
  unfold ChildPage.delta, ChildPage.nextDone. destruct task as [? ? ? ? ? pt []]; cbn; lia.
Qed.

Lemma nextDone_flipped task :
  ChildPage.nextDone (Task.set_is_done (ChildPage.nextDone task) task)
  = Task.is_done task.
Proof. unfold ChildPage.nextDone. by destruct task as [? ? ? ? ? ? []]. Qed.

(** ** Task toggles *)

(** C9. A toggle that runs to its end writes
    [max 0 (previous points + delta)] as the child's points, so the stored
    value is never negative; and when an undo takes more than the child
    holds, the toggle still runs to its end and stores zero. *)
Theorem toggleDone_stores_clamped_points task w :
  (∀ nd dl np w',
     ChildPage.toggleDone task w = (ChildPage.Toggled nd dl np, w') →
     ∃ prev,
       Child.points <$> filter (λ c, Child.id c = ChildPage.selectedChildId w)
                               (Server.children (Server.db (ChildPage.server w)))
       = [prev]
       ∧ np = Z.max 0 (default 0 prev + dl)
       ∧ Child.points <$> filter (λ c, Child.id c = ChildPage.selectedChildId w)
                                 (Server.children (Server.db (ChildPage.server w')))
         = [Some np]
       ∧ 0 ≤ np)
  ∧ (∀ u c,
       Server.faults (ChildPage.server w) = [] →
       Server.user (ChildPage.server w) = Some u →
       ChildPage.selectedChildId w ≠ "" →
       Task.child_id task = ChildPage.selectedChildId w →
       filter (λ c, Child.id c = ChildPage.selectedChildId w)
              (Server.children (Server.db (ChildPage.server w))) = [c] →
       Task.is_done task = true →
       default 0 (Child.points c) < Task.point task →
       (ChildPage.toggleDone task w).1 = ChildPage.Toggled false (- Task.point task) 0
       ∧ Child.points <$> filter (λ c, Child.id c = ChildPage.selectedChildId w)
                                 (Server.children (Server.db (ChildPage.server
                                    (ChildPage.toggleDone task w).2)))
         = [Some 0]).
Proof.
  split.
  - intros nd dl np w' Hrun.
    pose proof (toggleDone_cases task w) as H. rewrite Hrun in H.
    destruct H as (_ & -> & _ & _ & c & Hrow & -> & Hd & _).
    exists (Child.points c). rewrite Hrow.
    split; [done|]. split; [done|]. split; [|lia].
    rewrite Hd. cbn. by apply (points_after_update _ _ _ c).
  - intros u c Hf Hu Hsel Hchild Hrow Hdone Hlt.
    rewrite (toggleDone_commits task w u c) by done. cbn.
    unfold ChildPage.delta, ChildPage.nextDone. rewrite Hdone. cbn.
    replace (Z.max 0 (default 0 (Child.points c) + - Task.point task)) with 0 by lia.
    split; [done|]. by apply (points_after_update _ _ _ c).
Qed.

Lemma toggleDone_stores_clamped_points_witness :
  (∃ prev,
     Child.points <$> filter (λ c, Child.id c = "c1") (Server.children Scenario.db)
     = [prev]
     ∧ 0 = Z.max 0 (default 0 prev + -10)
     ∧ Child.points <$> filter (λ c, Child.id c = "c1")
         (Server.children (Server.db (ChildPage.server
            (ChildPage.toggleDone Scenario.homework (Scenario.childPage [])).2)))
       = [Some 0]
     ∧ 0 ≤ 0)
  ∧ (ChildPage.toggleDone Scenario.homework (Scenario.childPage [])).1
    = ChildPage.Toggled false (-10) 0.
Proof.
  split.
  - apply (proj1 (toggleDone_stores_clamped_points Scenario.homework (Scenario.childPage []))
             false (-10) 0
             (ChildPage.toggleDone Scenario.homework (Scenario.childPage [])).2).
    vm_compute. reflexivity.
  - apply (proj2 (toggleDone_stores_clamped_points Scenario.homework (Scenario.childPage []))
             "u1" Scenario.taro); try reflexivity; try done.
Defined.

(** C6 fails on the code as stated: with the balance write failing, the
    toggle has already stored the new done flag of the task and appends no
    ledger row. *)
Lemma every_stored_toggle_has_its_entry_refuted :
  ¬ (∀ task w,
       Server.tasks (Server.db (ChildPage.server (ChildPage.toggleDone task w).2))
       ≠ Server.tasks (Server.db (ChildPage.server w)) →
       ∃ entry,
         Server.point_transactions
           (Server.db (ChildPage.server (ChildPage.toggleDone task w).2))
         = Server.point_transactions (Server.db (ChildPage.server w)) ++ [entry]).
Proof.
  intros H.
  destruct (H Scenario.dishes (Scenario.childPage [None; None; Some Scenario.timeout])
              ltac:(vm_compute; discriminate)) as [entry Hentry].
  apply (f_equal length) in Hentry. vm_compute in Hentry. discriminate Hentry.
Qed.

(** C6 (as the code has it). A toggle that runs to its end appends exactly
    one ledger row: its delta is [+task.point] with kind [task_done] when
    the task becomes done and [-task.point] with kind [task_undo] when it
    becomes not done, and the stored task carries the new flag.  A toggle
    that stops at a failed read or write of the balance or at a failed
    insert of the ledger row has stored the new flag as well and appends no
    row; every other return leaves tasks and ledger as they were.  With the
    backend answering every call, the toggle of a task of the selected
    child runs to its end; with the backend failing the third call it
    stops after the flag was stored. *)
Theorem toggleDone_appends_one_entry task w :
  (∀ e w',
     ChildPage.toggleDone task w = (e, w') →
     let d := Server.db (ChildPage.server w) in
     let d' := Server.db (ChildPage.server w') in
     let flag_stored :=
       Forall (λ x, Task.id x = Task.id task → Task.is_done x = negb (Task.is_done task))
              (Server.tasks d') in
     match e with
     | ChildPage.Toggled nd dl np =>
         nd = negb (Task.is_done task)
         ∧ flag_stored
         ∧ ∃ entry, Server.point_transactions d' = Server.point_transactions d ++ [entry]
            ∧ PointTransaction.child_id entry = Task.child_id task
            ∧ PointTransaction.points entry = dl
            ∧ dl = (if nd then Task.point task else - Task.point task)
            ∧ PointTransaction.type entry = (if nd then "task_done" else "task_undo")
     | ChildPage.GetPointFailed _ | ChildPage.UpdatePointFailed _
     | ChildPage.TransactionFailed _ =>
         flag_stored ∧ Server.point_transactions d' = Server.point_transactions d
     | _ =>
         Server.tasks d' = Server.tasks d
         ∧ Server.point_transactions d' = Server.point_transactions d
     end)
  ∧ (∀ u c,
       Server.user (ChildPage.server w) = Some u →
       ChildPage.selectedChildId w ≠ "" →
       Task.child_id task = ChildPage.selectedChildId w →
       filter (λ c, Child.id c = ChildPage.selectedChildId w)
              (Server.children (Server.db (ChildPage.server w))) = [c] →
       (Server.faults (ChildPage.server w) = [] →
        ∃ np, (ChildPage.toggleDone task w).1
              = ChildPage.Toggled (negb (Task.is_done task)) (ChildPage.delta task) np)
       ∧ (∀ err fs,
            Server.faults (ChildPage.server w) = None :: None :: Some err :: fs →
            (ChildPage.toggleDone task w).1 = ChildPage.UpdatePointFailed err)).
Proof.
  split.
  - intros e w' Hrun.
    pose proof (toggleDone_cases task w) as H. rewrite Hrun in H. cbn zeta.
    destruct e.
    1-4: by destruct H as [-> _].
    1-2: destruct H as [-> _]; split; [apply is_done_after_update|done].
    + destruct H as [[c [_ ->]] _]. split; [apply is_done_after_update|done].
    + destruct H as (-> & -> & _ & Hchild & c & _ & _ & -> & _).
      split; [done|]. split; [apply is_done_after_update|].
      eexists. split; [reflexivity|]. cbn.
      rewrite Hchild. repeat split; try done.
  - intros u c Hu Hsel Hchild Hrow. split.
    + intros Hf. eexists. by rewrite (toggleDone_commits task w u c).
    + intros err fs Hf.
      by apply (proj1 (toggleDone_stops task w u c Hu Hsel Hchild Hrow) err fs).
Qed.

Lemma toggleDone_appends_one_entry_witness :
  (∃ entry,
     Server.point_transactions (Server.db (ChildPage.server
        (ChildPage.toggleDone Scenario.dishes (Scenario.childPage [])).2))
     = [Scenario.earned5] ++ [entry]
     ∧ PointTransaction.points entry = 10
     ∧ PointTransaction.type entry = "task_done")
  ∧ (∃ np, (ChildPage.toggleDone Scenario.dishes (Scenario.childPage [])).1
           = ChildPage.Toggled true 10 np)
  ∧ (ChildPage.toggleDone Scenario.dishes
       (Scenario.childPage [None; None; Some Scenario.timeout])).1
    = ChildPage.UpdatePointFailed Scenario.timeout
  ∧ Forall (λ x, Task.id x = "t2" → Task.is_done x = true)
      (Server.tasks (Server.db (ChildPage.server
         (ChildPage.toggleDone Scenario.dishes
            (Scenario.childPage [None; None; Some Scenario.timeout])).2)))
  ∧ Server.point_transactions (Server.db (ChildPage.server
      (ChildPage.toggleDone Scenario.dishes
         (Scenario.childPage [None; None; Some Scenario.timeout])).2))
    = [Scenario.earned5].
Proof.
  split; [|split; [|split]].
  - destruct (proj1 (toggleDone_appends_one_entry Scenario.dishes (Scenario.childPage []))
             (ChildPage.Toggled true 10 15)
             (ChildPage.toggleDone Scenario.dishes (Scenario.childPage [])).2
             ltac:(vm_compute; reflexivity)) as (_ & _ & entry & H & _ & Hp & _ & Ht).
    exists entry. split; [exact H|]. split; [exact Hp|exact Ht].
  - apply (proj1 (proj2 (toggleDone_appends_one_entry Scenario.dishes (Scenario.childPage []))
                    "u1" Scenario.taro eq_refl ltac:(done) eq_refl eq_refl)).
    reflexivity.
  - apply (proj2 (proj2 (toggleDone_appends_one_entry Scenario.dishes
                           (Scenario.childPage [None; None; Some Scenario.timeout]))
                    "u1" Scenario.taro eq_refl ltac:(done) eq_refl eq_refl)
             Scenario.timeout []).
    reflexivity.
  - exact (proj1 (toggleDone_appends_one_entry Scenario.dishes
                    (Scenario.childPage [None; None; Some Scenario.timeout]))
             (ChildPage.UpdatePointFailed Scenario.timeout)
             (ChildPage.toggleDone Scenario.dishes
                (Scenario.childPage [None; None; Some Scenario.timeout])).2
             ltac:(vm_compute; reflexivity)).
Defined.

(** ** Approval on the simple page *)

(** What [approve] leaves in the store: each of the two writes takes effect
    exactly when its own call ran, whatever happened to the other. *)
Lemma approve_cases r w :
  let s := RewardRequestsPage.server w in
  let d := Server.db s in
  let d' := Server.db (RewardRequestsPage.server (RewardRequestsPage.approve r w).2) in
  Server.reward_redemptions d'
  = (if Server.runs 0 s
     then RewardRedemption.update_status (RewardRedemptionWithReward.id r) approved
            (Server.reward_redemptions d)
     else Server.reward_redemptions d)
  ∧ Server.point_transactions d'
    = (if Server.runs 1 s
       then Server.point_transactions d ++ [RewardRequestsPage.spend r]
       else Server.point_transactions d)
  ∧ Server.children d' = Server.children d
  ∧ Server.tasks d' = Server.tasks d.
Proof.
  destruct w as [[d fs u] l].
  unfold RewardRequestsPage.approve, RewardRequestsPage.backend, Server.runs.
  unfold_queries. run_page.
  next_call fs; [done| |].
  - next_call fs; [done| |]; next_call fs; done.
  - next_call fs; [done| |]; next_call fs; done.
Qed.

(** C5 (as the code has it). The task update, the reading and the writing
    of the balance and the history insert are separate calls in that order,
    with nothing undone when a later one fails.  If the task update itself
    fails, the store is untouched.  If the reading or the writing of the
    balance fails, the stored done flag of the task has already changed
    while balance and ledger are as before.  If the history insert fails,
    the stored flag has changed and the balance holds the new points while
    the ledger is as before.  In every one of these failures the page's
    own copy of the tasks and of the points keeps its old value.  The last
    two failures do occur when the backend fails the third or the fourth
    call. *)
Theorem toggleDone_writes_are_separate task w :
  let d := Server.db (ChildPage.server w) in
  let sel := ChildPage.selectedChildId w in
  let flag_stored := λ d' : Server.Db,
    Forall (λ x, Task.id x = Task.id task → Task.is_done x = negb (Task.is_done task))
           (Server.tasks d')
    ∧ filter (λ x, Task.id x ≠ Task.id task) (Server.tasks d')
      = filter (λ x, Task.id x ≠ Task.id task) (Server.tasks d) in
  let page_kept := λ w' : ChildPage.World,
    ChildPage.tasks w' = ChildPage.tasks w
    ∧ ChildPage.pointsMap w' = ChildPage.pointsMap w in
  (∀ e w', ChildPage.toggleDone task w = (ChildPage.UpdateTaskFailed e, w') →
     Server.db (ChildPage.server w') = d ∧ page_kept w')
  ∧ (∀ e w', ChildPage.toggleDone task w = (ChildPage.GetPointFailed e, w')
             ∨ ChildPage.toggleDone task w = (ChildPage.UpdatePointFailed e, w') →
       let d' := Server.db (ChildPage.server w') in
       flag_stored d'
       ∧ Server.children d' = Server.children d
       ∧ Server.point_transactions d' = Server.point_transactions d
       ∧ page_kept w')
  ∧ (∀ e w', ChildPage.toggleDone task w = (ChildPage.TransactionFailed e, w') →
       let d' := Server.db (ChildPage.server w') in
       flag_stored d'
       ∧ (∃ prev,
            Child.points <$> filter (λ c, Child.id c = sel) (Server.children d) = [prev]
            ∧ Child.points <$> filter (λ c, Child.id c = sel) (Server.children d')
              = [Some (Z.max 0 (default 0 prev + ChildPage.delta task))])
       ∧ Server.point_transactions d' = Server.point_transactions d
       ∧ page_kept w')
  ∧ (∀ u c,
       Server.user (ChildPage.server w) = Some u →
       ChildPage.selectedChildId w ≠ "" →
       Task.child_id task = ChildPage.selectedChildId w →
       filter (λ c, Child.id c = ChildPage.selectedChildId w)
              (Server.children d) = [c] →
       (∀ e fs, Server.faults (ChildPage.server w) = None :: None :: Some e :: fs →
          (ChildPage.toggleDone task w).1 = ChildPage.UpdatePointFailed e)
       ∧ (∀ e fs, Server.faults (ChildPage.server w) = None :: None :: None :: Some e :: fs →
          (ChildPage.toggleDone task w).1 = ChildPage.TransactionFailed e)).
Proof.
  cbn zeta.
  assert (Hflag : ∀ d0 : Server.Db,
    Forall (λ x, Task.id x = Task.id task → Task.is_done x = negb (Task.is_done task))
           (Task.update_is_done (Task.id task) (ChildPage.nextDone task) (Server.tasks d0))
    ∧ filter (λ x, Task.id x ≠ Task.id task)
             (Task.update_is_done (Task.id task) (ChildPage.nextDone task) (Server.tasks d0))
      = filter (λ x, Task.id x ≠ Task.id task) (Server.tasks d0)).
  { intros d0. split; [apply is_done_after_update|apply update_is_done_elsewhere]. }
  split; [|split; [|split]].
  - intros e w' Hrun.
    pose proof (toggleDone_cases task w) as H. rewrite Hrun in H. by destruct H.
  - intros e w' [Hrun|Hrun];
      pose proof (toggleDone_cases task w) as H; rewrite Hrun in H;
      destruct H as (-> & -> & ->); cbn; (split; [apply Hflag|done]).
  - intros e w' Hrun.
    pose proof (toggleDone_cases task w) as H. rewrite Hrun in H.
    destruct H as ((c & Hrow & ->) & -> & ->). cbn.
    split; [apply Hflag|]. split; [|done].
    exists (Child.points c). rewrite Hrow. split; [done|].
    by apply (points_after_update _ _ _ c).
  - intros u c Hu Hsel Hchild Hrow. by eapply toggleDone_stops.
Qed.

Lemma toggleDone_writes_are_separate_witness :
  (ChildPage.toggleDone Scenario.homework
     (Scenario.childPage [None; None; Some Scenario.timeout])).1
    = ChildPage.UpdatePointFailed Scenario.timeout
  ∧ Forall (λ x, Task.id x = "t1" → Task.is_done x = false)
      (Server.tasks (Server.db (ChildPage.server
         (ChildPage.toggleDone Scenario.homework
            (Scenario.childPage [None; None; Some Scenario.timeout])).2)))
  ∧ Server.children (Server.db (ChildPage.server
      (ChildPage.toggleDone Scenario.homework
         (Scenario.childPage [None; None; Some Scenario.timeout])).2))
    = [Scenario.taro]
  ∧ Server.point_transactions (Server.db (ChildPage.server
      (ChildPage.toggleDone Scenario.homework
         (Scenario.childPage [None; None; Some Scenario.timeout])).2))
    = [Scenario.earned5]
  ∧ ChildPage.tasks
      (ChildPage.toggleDone Scenario.homework
         (Scenario.childPage [None; None; Some Scenario.timeout])).2
    = [Scenario.homework; Scenario.dishes].
Proof.
  pose proof (toggleDone_writes_are_separate Scenario.homework
                (Scenario.childPage [None; None; Some Scenario.timeout])) as H.
  cbn zeta in H. destruct H as (_ & Hpoint & _ & Hstops).
  split.
  - apply (proj1 (Hstops "u1" Scenario.taro eq_refl ltac:(done) eq_refl eq_refl)
             Scenario.timeout [] eq_refl).
  - assert (Hrun : ChildPage.toggleDone Scenario.homework
                      (Scenario.childPage [None; None; Some Scenario.timeout])
                    = (ChildPage.UpdatePointFailed Scenario.timeout,
                       (ChildPage.toggleDone Scenario.homework
                          (Scenario.childPage [None; None; Some Scenario.timeout])).2)).
    { vm_compute. reflexivity. }
    destruct (Hpoint _ _ (or_intror Hrun)) as ((Hflag & _) & Hc & Hl & Ht & _).
    split; [exact Hflag|]. split; [exact Hc|]. split; [exact Hl|exact Ht].
Defined.

(** C5 fails on the code as stated: with the balance write failing, the
    stored done flag of the task has changed all the same. *)
Lemma failed_balance_write_keeps_flag_refuted :
  ¬ (∀ task w e w',
       ChildPage.toggleDone task w = (ChildPage.UpdatePointFailed e, w') →
       Server.tasks (Server.db (ChildPage.server w'))
       = Server.tasks (Server.db (ChildPage.server w))).
Proof.
  intros H.
  specialize (H Scenario.homework
                (Scenario.childPage [None; None; Some Scenario.timeout])
                Scenario.timeout _ ltac:(vm_compute; reflexivity)).
  vm_compute in H. discriminate H.
Qed.

(** ** Debits that exceed the balance *)

(** C1 fails on the code as stated: undoing a 10-point task of a child who
    holds 5 points is carried out and changes the store. *)
Lemma overdrawing_undo_leaves_store_refuted :
  ¬ (∀ task w c,
       filter (λ c, Child.id c = ChildPage.selectedChildId w)
              (Server.children (Server.db (ChildPage.server w))) = [c] →
       Task.is_done task = true →
       default 0 (Child.points c) - Task.point task < 0 →
       Server.db (ChildPage.server (ChildPage.toggleDone task w).2)
       = Server.db (ChildPage.server w)).
Proof.
  intros H.
  specialize (H Scenario.homework (Scenario.childPage []) Scenario.taro
                eq_refl eq_refl ltac:(vm_compute; reflexivity)).
  vm_compute in H. discriminate H.
Qed.

(** C1 (as the code has it). Neither debit is refused for lack of points.
    An undo that takes more than the child holds runs to its end: the
    stored done flag of the task is false afterwards, the stored points of
    the child are 0 and one [task_undo] row of [-task.point] is appended.
    The approval of the simple page never reads the balance: whenever its
    two writes run, every stored row of the request has the status
    approved, no request is added or dropped, and a spend row of
    [-required_points] is appended, whatever the child holds. *)
Theorem overdrawing_debit_is_carried_out :
  (∀ task w u c,
     Server.faults (ChildPage.server w) = [] →
     Server.user (ChildPage.server w) = Some u →
     ChildPage.selectedChildId w ≠ "" →
     Task.child_id task = ChildPage.selectedChildId w →
     filter (λ c, Child.id c = ChildPage.selectedChildId w)
            (Server.children (Server.db (ChildPage.server w))) = [c] →
     Task.is_done task = true →
     default 0 (Child.points c) - Task.point task < 0 →
     let d := Server.db (ChildPage.server w) in
     let d' := Server.db (ChildPage.server (ChildPage.toggleDone task w).2) in
     (ChildPage.toggleDone task w).1 = ChildPage.Toggled false (- Task.point task) 0
     ∧ Forall (λ x, Task.id x = Task.id task → Task.is_done x = false) (Server.tasks d')
     ∧ Child.points <$> filter (λ c, Child.id c = ChildPage.selectedChildId w)
                               (Server.children d')
       = [Some 0]
     ∧ ∃ entry, Server.point_transactions d' = Server.point_transactions d ++ [entry]
         ∧ PointTransaction.child_id entry = ChildPage.selectedChildId w
         ∧ PointTransaction.type entry = "task_undo"
         ∧ PointTransaction.points entry = - Task.point task)
  ∧ (∀ r w,
       Server.runs 0 (RewardRequestsPage.server w) = true →
       Server.runs 1 (RewardRequestsPage.server w) = true →
       let d := Server.db (RewardRequestsPage.server w) in
       let d' := Server.db (RewardRequestsPage.server (RewardRequestsPage.approve r w).2) in
       Forall (λ row, RewardRedemption.id row = RewardRedemptionWithReward.id r →
                      RewardRedemption.status row = approved)
              (Server.reward_redemptions d')
       ∧ RewardRedemption.id <$> Server.reward_redemptions d'
         = RewardRedemption.id <$> Server.reward_redemptions d
       ∧ ∃ entry, Server.point_transactions d' = Server.point_transactions d ++ [entry]
           ∧ PointTransaction.child_id entry = RewardRedemptionWithReward.child_id r
           ∧ PointTransaction.reward_redemption_id entry
             = Some (RewardRedemptionWithReward.id r)
           ∧ PointTransaction.points entry
             = - Reward.required_points (RewardRedemptionWithReward.rewards r)).
Proof.
  split.
  - intros task w u c Hf Hu Hsel Hchild Hrow Hdone Hlt. cbn zeta.
    rewrite (toggleDone_commits task w u c) by done. cbn.
    assert (Hnext : ChildPage.nextDone task = false)
      by (unfold ChildPage.nextDone; by rewrite Hdone).
    assert (Hdelta : ChildPage.delta task = - Task.point task)
      by (unfold ChildPage.delta; by rewrite Hnext).
    rewrite Hnext, Hdelta.
    replace (Z.max 0 (default 0 (Child.points c) + - Task.point task)) with 0 by lia.
    split; [done|]. split; [apply is_done_after_update|]. split.
    + by apply (points_after_update _ _ _ c).
    + eexists. split; [reflexivity|]. cbn. by rewrite Hnext, Hdelta.
  - intros r w H0 H1. cbn zeta.
    destruct (approve_cases r w) as (Hs & Hl & _).
    rewrite H0 in Hs. rewrite H1 in Hl. rewrite Hs.
    split; [apply status_after_update|]. split.
    + apply update_status_keeps_ids.
    + eexists. split; [exact Hl|]. done.
Qed.

Lemma overdrawing_debit_is_carried_out_witness :
  ((ChildPage.toggleDone Scenario.homework (Scenario.childPage [])).1
     = ChildPage.Toggled false (- 10) 0
   ∧ Child.points <$> filter (λ c, Child.id c = "c1")
       (Server.children (Server.db (ChildPage.server
          (ChildPage.toggleDone Scenario.homework (Scenario.childPage [])).2)))
     = [Some 0])
  ∧ Forall (λ row, RewardRedemption.id row = 7 → RewardRedemption.status row = approved)
      (Server.reward_redemptions (Server.db (RewardRequestsPage.server
         (RewardRequestsPage.approve Scenario.pendingGame (Scenario.requestsPage [])).2))).
Proof.
  split.
  - destruct (proj1 overdrawing_debit_is_carried_out
                Scenario.homework (Scenario.childPage []) "u1" Scenario.taro
                eq_refl eq_refl ltac:(done) eq_refl eq_refl eq_refl
                ltac:(vm_compute; reflexivity)) as (He & _ & Hc & _).
    split; [exact He|exact Hc].
  - destruct (proj2 overdrawing_debit_is_carried_out
                Scenario.pendingGame (Scenario.requestsPage []) eq_refl eq_refl)
      as (Hs & _).
    exact Hs.
Defined.

(** ** Approval and its spend row *)

Lemma spends_snoc_own rid l e :
  PointTransaction.reward_redemption_id e = Some rid →
  Ledger.spends rid (l ++ [e]) = Ledger.spends rid l ++ [e].
Proof.
  intros He. unfold Ledger.spends. rewrite filter_app. f_equal.
  by rewrite filter_cons_True.
Qed.

(** C3 fails on the code as stated: approving the same request a second
    time (a second click on a row still shown, or a second session) leaves
    two spend rows for one redemption. *)
Lemma one_spend_per_redemption_refuted :
  ¬ (∀ r w,
       Ledger.spend_consistent (Server.db (RewardRequestsPage.server w)) →
       Ledger.spend_consistent
         (Server.db (RewardRequestsPage.server (RewardRequestsPage.approve r w).2))).
Proof.
  intros H.
  specialize (H Scenario.pendingGame Scenario.approvedOnce).
  assert (Hbefore : Ledger.spend_consistent
                      (Server.db (RewardRequestsPage.server Scenario.approvedOnce))).
  { apply (bool_decide_unpack _). vm_compute. exact I. }
  apply H in Hbefore. pose proof (bool_decide_pack _ Hbefore) as Hafter.
  vm_compute in Hafter. exact Hafter.
Qed.

(** C3 (as the code has it). The status update and the spend row are two
    separate calls whose outcomes the page does not look at.  When both
    run, every stored row of the redemption is approved and exactly one
    spend row referencing it is appended, so a redemption without a spend
    row has exactly one afterwards.  When only the first runs the
    redemption is approved with no spend row added; when only the second
    runs a spend row is added and the status stays as it was. *)
Theorem approve_status_and_spend_are_separate r w :
  let s := RewardRequestsPage.server w in
  let d := Server.db s in
  let d' := Server.db (RewardRequestsPage.server (RewardRequestsPage.approve r w).2) in
  let rid := RewardRedemptionWithReward.id r in
  (Server.runs 0 s = true → Server.runs 1 s = true →
     Forall (λ row, RewardRedemption.id row = rid → RewardRedemption.status row = approved)
            (Server.reward_redemptions d')
     ∧ Server.point_transactions d'
       = Server.point_transactions d ++ [RewardRequestsPage.spend r]
     ∧ Ledger.spends rid (Server.point_transactions d')
       = Ledger.spends rid (Server.point_transactions d) ++ [RewardRequestsPage.spend r]
     ∧ (Ledger.spends rid (Server.point_transactions d) = [] →
        length (Ledger.spends rid (Server.point_transactions d')) = 1%nat))
  ∧ (Server.runs 0 s = true → Server.runs 1 s = false →
       Server.reward_redemptions d'
       = RewardRedemption.update_status rid approved (Server.reward_redemptions d)
       ∧ Server.point_transactions d' = Server.point_transactions d)
  ∧ (Server.runs 0 s = false → Server.runs 1 s = true →
       Server.reward_redemptions d' = Server.reward_redemptions d
       ∧ Server.point_transactions d'
         = Server.point_transactions d ++ [RewardRequestsPage.spend r]).
Proof.
  cbn zeta. destruct (approve_cases r w) as (Hs & Hl & _).
  split; [|split]; intros H0 H1; rewrite H0 in Hs; rewrite H1 in Hl.
  - rewrite Hs, Hl. split; [apply status_after_update|]. split; [done|].
    rewrite spends_snoc_own by done. split; [done|].
    intros ->. done.
  - done.
  - done.
Qed.

Lemma approve_status_and_spend_are_separate_witness :
  Ledger.spends 7 (Server.point_transactions (Server.db (RewardRequestsPage.server
     (RewardRequestsPage.approve Scenario.pendingGame (Scenario.requestsPage [])).2)))
  = Ledger.spends 7 [Scenario.earned5] ++ [RewardRequestsPage.spend Scenario.pendingGame]
  ∧ (Server.reward_redemptions (Server.db (RewardRequestsPage.server
       (RewardRequestsPage.approve Scenario.pendingGame
          (Scenario.requestsPage [None; Some Scenario.timeout])).2))
     = RewardRedemption.update_status 7 approved [Scenario.request 7 pending 50]
     ∧ Server.point_transactions (Server.db (RewardRequestsPage.server
         (RewardRequestsPage.approve Scenario.pendingGame
            (Scenario.requestsPage [None; Some Scenario.timeout])).2))
       = [Scenario.earned5])
  ∧ (Server.reward_redemptions (Server.db (RewardRequestsPage.server
       (RewardRequestsPage.approve Scenario.pendingGame
          (Scenario.requestsPage [Some Scenario.timeout; None])).2))
     = [Scenario.request 7 pending 50]
     ∧ Server.point_transactions (Server.db (RewardRequestsPage.server
         (RewardRequestsPage.approve Scenario.pendingGame
            (Scenario.requestsPage [Some Scenario.timeout; None])).2))
       = [Scenario.earned5] ++ [RewardRequestsPage.spend Scenario.pendingGame]).
Proof.
  split; [|split].
  - destruct (proj1 (approve_status_and_spend_are_separate
                       Scenario.pendingGame (Scenario.requestsPage []))
                eq_refl eq_refl) as (_ & _ & H & _).
    exact H.
  - exact (proj1 (proj2 (approve_status_and_spend_are_separate
                   Scenario.pendingGame
                   (Scenario.requestsPage [None; Some Scenario.timeout])))
             eq_refl eq_refl).
  - exact (proj2 (proj2 (approve_status_and_spend_are_separate
                   Scenario.pendingGame
                   (Scenario.requestsPage [Some Scenario.timeout; None])))
             eq_refl eq_refl).
Defined.

(** ** Approval of a request that is no longer pending *)

(** Reloading the list only reads. *)
Lemma reload_reads_only w :
  Server.db (ParentRedemptionsPage.server (ParentRedemptionsPage.reload w).2)
  = Server.db (ParentRedemptionsPage.server w).
Proof.
  destruct w as [[d fs u] ld it sel].
  unfold ParentRedemptionsPage.reload, ParentRedemptionsPage.fetchRows,
    ParentRedemptionsPage.backend, ParentRedemptionsPage.pending_rows,
    Server.reward_redemptions_select_pending_ordered.
  unfold_queries. run_page.
  next_call fs; done.
Qed.

(** A call of a stored procedure through [approve] or [reject]: what the
    page returns and leaves behind is decided by the procedure alone. *)
Lemma rpc_call_cases proc id w :
  let s := ParentRedemptionsPage.server w in
  let d := Server.db s in
  let '(ok, w') := ParentRedemptionsPage.approve proc id w in
  let d' := Server.db (ParentRedemptionsPage.server w') in
  match Server.runs 0 s, proc id d with
  | true, inr d1 => ok = true ∧ d' = d1
  | _, _ => ok = false ∧ d' = d
                ∧ ParentRedemptionsPage.items w' = ParentRedemptionsPage.items w
                ∧ ParentRedemptionsPage.loading w' = ParentRedemptionsPage.loading w
  end.
Proof.
  destruct w as [[d fs u] ld it sel].
  unfold ParentRedemptionsPage.approve, ParentRedemptionsPage.backend,
    ParentRedemptionsPage.rpc, Server.runs.
  unfold_queries. run_page.
  next_call fs.
  - destruct (proc id d) as [e|d1] eqn:Hp; cbn; [done|].
    match goal with
    | |- context [ParentRedemptionsPage.reload ?w0] =>
        pose proof (reload_reads_only w0) as Hr;
        destruct (ParentRedemptionsPage.reload w0) as [[] w1]
    end.
    cbn in *. done.
  - done.
  - destruct (proc id d) as [e0|d1] eqn:Hp; cbn; [done|].
    match goal with
    | |- context [ParentRedemptionsPage.reload ?w0] =>
        pose proof (reload_reads_only w0) as Hr;
        destruct (ParentRedemptionsPage.reload w0) as [[] w1]
    end.
    cbn in *. done.
Qed.

(** C4 fails on the code as stated: the simple page approves a request
    that the store already holds as rejected, and appends a spend row. *)
Lemma handled_request_is_left_alone_refuted :
  ¬ (∀ r w,
       (∃ row, row ∈ Server.reward_redemptions (Server.db (RewardRequestsPage.server w))
               ∧ RewardRedemption.id row = RewardRedemptionWithReward.id r
               ∧ RewardRedemption.status row ≠ pending) →
       Server.db (RewardRequestsPage.server (RewardRequestsPage.approve r w).2)
       = Server.db (RewardRequestsPage.server w)).
Proof.
  intros H.
  specialize (H Scenario.pendingGame Scenario.handledRequestsPage).
  assert (Hgoal : Server.db (RewardRequestsPage.server
                     (RewardRequestsPage.approve Scenario.pendingGame
                        Scenario.handledRequestsPage).2)
                  = Server.db (RewardRequestsPage.server Scenario.handledRequestsPage)).
  { apply H. exists (Scenario.request 7 rejected 50).
    split; [apply list_elem_of_here|]. split; [reflexivity|discriminate]. }
  vm_compute in Hgoal. discriminate Hgoal.
Qed.

(** What the procedures of the spec answer for a request that is not
    pending: no store, and InvalidState when the request exists. *)
Lemma load_pending_refuses rid d :
  Forall (λ r, RewardRedemption.id r = rid → RewardRedemption.status r ≠ pending)
         (Server.reward_redemptions d) →
  ∃ e, StoredProcedure.load_pending rid d = inl e
       ∧ ((∃ r, r ∈ Server.reward_redemptions d ∧ RewardRedemption.id r = rid) →
          e = StoredProcedure.error "InvalidState").
Proof.
  intros Hall. unfold StoredProcedure.load_pending.
  destruct (filter _ (Server.reward_redemptions d)) as [|r rest] eqn:Hf.
  - eexists. split; [reflexivity|]. intros (r & Hin & Hid).
    exfalso. by apply (filter_nil_not_elem_of _ _ r Hf).
  - assert (r ∈ filter (λ r, RewardRedemption.id r = rid) (Server.reward_redemptions d))
      as Hr by (rewrite Hf; apply list_elem_of_here).
    apply list_elem_of_filter in Hr as [Hid Hin].
    rewrite Forall_forall in Hall.
    rewrite decide_False by (by apply Hall).
    eexists. split; [reflexivity|]. done.
Qed.

Lemma handle_rows rid st actor d :
  Forall (λ r, RewardRedemption.id r = rid →
               RewardRedemption.status r = st
               ∧ RewardRedemption.handled_by r = Some actor)
         (Server.reward_redemptions (StoredProcedure.handle rid st actor d))
  ∧ RewardRedemption.id <$> Server.reward_redemptions (StoredProcedure.handle rid st actor d)
    = RewardRedemption.id <$> Server.reward_redemptions d.
Proof.
  unfold StoredProcedure.handle. cbn. split.
  - apply Forall_fmap, Forall_true. intros r. cbn.
    destruct (decide (RewardRedemption.id r = rid)); cbn; [done|]. intros ?; done.
  - rewrite <- list_fmap_compose. apply list_fmap_ext. intros _ r _. cbn.
    by destruct (decide (RewardRedemption.id r = rid)).
Qed.

(** C4 (as the code has it). The approval of the simple page does not read
    the stored status: when its two writes run, every stored row of the
    request is approved afterwards whatever its status was, and a spend row
    is appended.  On the page backed by stored procedures, [approve] and
    [reject] write nothing themselves: when the call fails or the procedure
    turns it down, the store and the list stay as they were and no success
    is shown.  With the procedures as the spec gives them, [approve] and
    [reject] of a request that is not pending are turned down with
    InvalidState, append no ledger row and change neither the store nor
    the list; a pending request is approved with one spend row and the
    debit when the child holds enough points, turned down without any
    change when it does not, and rejected without a ledger row. *)
Theorem approve_does_not_check_status :
  (∀ r w row,
     Server.runs 0 (RewardRequestsPage.server w) = true →
     Server.runs 1 (RewardRequestsPage.server w) = true →
     row ∈ Server.reward_redemptions (Server.db (RewardRequestsPage.server w)) →
     RewardRedemption.id row = RewardRedemptionWithReward.id r →
     let d := Server.db (RewardRequestsPage.server w) in
     let d' := Server.db (RewardRequestsPage.server (RewardRequestsPage.approve r w).2) in
     Forall (λ row', RewardRedemption.id row' = RewardRedemptionWithReward.id r →
                     RewardRedemption.status row' = approved)
            (Server.reward_redemptions d')
     ∧ RewardRedemption.id row ∈ RewardRedemption.id <$> Server.reward_redemptions d'
     ∧ ∃ entry, Server.point_transactions d' = Server.point_transactions d ++ [entry]
         ∧ PointTransaction.reward_redemption_id entry = Some (RewardRedemption.id row)
         ∧ PointTransaction.points entry
           = - Reward.required_points (RewardRedemptionWithReward.rewards r))
  ∧ (∀ proc id w,
       let s := ParentRedemptionsPage.server w in
       let d := Server.db s in
       let unchanged := λ r : bool * ParentRedemptionsPage.World,
         r.1 = false
         ∧ Server.db (ParentRedemptionsPage.server r.2) = d
         ∧ ParentRedemptionsPage.items r.2 = ParentRedemptionsPage.items w in
       (Server.runs 0 s = false ∨ (∃ e, proc id d = inl e) →
          unchanged (ParentRedemptionsPage.approve proc id w)
          ∧ unchanged (ParentRedemptionsPage.reject proc id w))
       ∧ (∀ d1, Server.runs 0 s = true → proc id d = inr d1 →
            Server.db (ParentRedemptionsPage.server
                         (ParentRedemptionsPage.approve proc id w).2) = d1
            ∧ Server.db (ParentRedemptionsPage.server
                           (ParentRedemptionsPage.reject proc id w).2) = d1))
  ∧ (∀ actor id w,
       let d := Server.db (ParentRedemptionsPage.server w) in
       let unchanged := λ r : bool * ParentRedemptionsPage.World,
         r.1 = false
         ∧ Server.db (ParentRedemptionsPage.server r.2) = d
         ∧ ParentRedemptionsPage.items r.2 = ParentRedemptionsPage.items w in
       Forall (λ r, RewardRedemption.id r = id → RewardRedemption.status r ≠ pending)
              (Server.reward_redemptions d) →
       ((∃ r, r ∈ Server.reward_redemptions d ∧ RewardRedemption.id r = id) →
          StoredProcedure.approve_reward_redemption actor id d
            = inl (StoredProcedure.error "InvalidState")
          ∧ StoredProcedure.reject_reward_redemption actor id d
            = inl (StoredProcedure.error "InvalidState"))
       ∧ unchanged (ParentRedemptionsPage.approve
                      (StoredProcedure.approve_reward_redemption actor) id w)
       ∧ unchanged (ParentRedemptionsPage.reject
                      (StoredProcedure.reject_reward_redemption actor) id w))
  ∧ (∀ actor id w r reward c,
       let d := Server.db (ParentRedemptionsPage.server w) in
       let approved_w := ParentRedemptionsPage.approve
                           (StoredProcedure.approve_reward_redemption actor) id w in
       let rejected_w := ParentRedemptionsPage.reject
                           (StoredProcedure.reject_reward_redemption actor) id w in
       let da := Server.db (ParentRedemptionsPage.server approved_w.2) in
       let dr := Server.db (ParentRedemptionsPage.server rejected_w.2) in
       Server.runs 0 (ParentRedemptionsPage.server w) = true →
       filter (λ r, RewardRedemption.id r = id) (Server.reward_redemptions d) = [r] →
       RewardRedemption.status r = pending →
       Server.reward_of d r = Some reward →
       filter (λ c, Child.id c = RewardRedemption.child_id r) (Server.children d) = [c] →
       (Reward.required_points reward ≤ default 0 (Child.points c) →
          approved_w.1 = true
          ∧ Forall (λ r', RewardRedemption.id r' = id →
                          RewardRedemption.status r' = approved
                          ∧ RewardRedemption.handled_by r' = Some actor)
                   (Server.reward_redemptions da)
          ∧ RewardRedemption.id <$> Server.reward_redemptions da
            = RewardRedemption.id <$> Server.reward_redemptions d
          ∧ (∃ entry, Server.point_transactions da = Server.point_transactions d ++ [entry]
               ∧ PointTransaction.reward_redemption_id entry = Some id
               ∧ PointTransaction.child_id entry = RewardRedemption.child_id r
               ∧ PointTransaction.points entry = - Reward.required_points reward)
          ∧ Child.points <$> filter (λ c, Child.id c = RewardRedemption.child_id r)
                                    (Server.children da)
            = [Some (default 0 (Child.points c) - Reward.required_points reward)])
       ∧ (default 0 (Child.points c) < Reward.required_points reward →
            StoredProcedure.approve_reward_redemption actor id d
              = inl (StoredProcedure.error "InsufficientBalance")
            ∧ approved_w.1 = false ∧ da = d)
       ∧ (rejected_w.1 = true
          ∧ Forall (λ r', RewardRedemption.id r' = id →
                          RewardRedemption.status r' = rejected
                          ∧ RewardRedemption.handled_by r' = Some actor)
                   (Server.reward_redemptions dr)
          ∧ Server.point_transactions dr = Server.point_transactions d
          ∧ Server.children dr = Server.children d)).
Proof.
  split; [|split; [|split]].
  - intros r w row H0 H1 Hin Hid. cbn zeta.
    destruct (approve_cases r w) as (Hs & Hl & _). rewrite H0 in Hs. rewrite H1 in Hl.
    rewrite Hs. split; [apply status_after_update|]. split.
    + rewrite update_status_keeps_ids. by apply list_elem_of_fmap_2.
    + eexists. split; [exact Hl|]. cbn. by rewrite Hid.
  - intros proc id w. cbn zeta.
    change (ParentRedemptionsPage.reject proc id w)
      with (ParentRedemptionsPage.approve proc id w).
    pose proof (rpc_call_cases proc id w) as H. cbn zeta in H.
    destruct (ParentRedemptionsPage.approve proc id w) as [ok w']. cbn.
    split.
    + intros [Hf | [e He]].
      * rewrite Hf in H. by destruct H as (-> & -> & -> & _).
      * rewrite He in H.
        destruct (Server.runs 0 (ParentRedemptionsPage.server w));
          by destruct H as (-> & -> & -> & _).
    + intros d1 Hr Hp. rewrite Hr, Hp in H. by destruct H as (_ & ->).
  - intros actor id w. cbn zeta. intros Hall.
    destruct (load_pending_refuses id _ Hall) as (e & He & Hkind).
    assert (Ha : StoredProcedure.approve_reward_redemption actor id
                   (Server.db (ParentRedemptionsPage.server w)) = inl e)
      by (unfold StoredProcedure.approve_reward_redemption; by rewrite He).
    assert (Hr : StoredProcedure.reject_reward_redemption actor id
                   (Server.db (ParentRedemptionsPage.server w)) = inl e)
      by (unfold StoredProcedure.reject_reward_redemption; by rewrite He).
    split; [intros Hex; by rewrite Ha, Hr, (Hkind Hex)|].
    split.
    + pose proof (rpc_call_cases (StoredProcedure.approve_reward_redemption actor) id w) as H.
      cbn zeta in H. rewrite Ha in H.
      destruct (ParentRedemptionsPage.approve _ id w) as [ok w']. cbn.
      destruct (Server.runs 0 (ParentRedemptionsPage.server w));
        by destruct H as (-> & -> & -> & _).
    + change (ParentRedemptionsPage.reject
                (StoredProcedure.reject_reward_redemption actor) id w)
        with (ParentRedemptionsPage.approve
                (StoredProcedure.reject_reward_redemption actor) id w).
      pose proof (rpc_call_cases (StoredProcedure.reject_reward_redemption actor) id w) as H.
      cbn zeta in H. rewrite Hr in H.
      destruct (ParentRedemptionsPage.approve _ id w) as [ok w']. cbn.
      destruct (Server.runs 0 (ParentRedemptionsPage.server w));
        by destruct H as (-> & -> & -> & _).
  - intros actor id w r reward c. cbn zeta. intros Hruns Hrow Hpend Hreward Hchild.
    assert (Hload : StoredProcedure.load_pending id
                      (Server.db (ParentRedemptionsPage.server w)) = inr r).
    { unfold StoredProcedure.load_pending. rewrite Hrow. by rewrite decide_True. }
    split; [|split].
    + intros Hge.
      pose proof (rpc_call_cases (StoredProcedure.approve_reward_redemption actor) id w) as H.
      cbn zeta in H. rewrite Hruns in H.
      unfold StoredProcedure.approve_reward_redemption, StoredProcedure.applyDelta in H.
      rewrite Hload, Hreward, Hchild in H. cbn zeta in H.
      rewrite decide_False in H by lia.
      destruct (ParentRedemptionsPage.approve _ id w) as [ok w']. cbn [fst snd].
      destruct H as (-> & ->). split; [done|].
      destruct (handle_rows id approved actor
                  (Server.set_point_transactions
                     (Server.point_transactions (Server.db (ParentRedemptionsPage.server w))
                        ++ [StoredProcedure.redemption_spend r reward])
                     (Server.set_children
                        (Child.update_points (RewardRedemption.child_id r)
                           (default 0 (Child.points c) + - Reward.required_points reward)
                           (Server.children (Server.db (ParentRedemptionsPage.server w))))
                        (Server.db (ParentRedemptionsPage.server w))))) as [Hst Hids].
      split; [exact Hst|]. split; [exact Hids|]. split.
      * eexists. split; [reflexivity|]. cbn.
        assert (r ∈ filter (λ r, RewardRedemption.id r = id)
                      (Server.reward_redemptions (Server.db (ParentRedemptionsPage.server w))))
          as Hr by (rewrite Hrow; apply list_elem_of_here).
        apply list_elem_of_filter in Hr as [-> _]. done.
      * cbn. replace (default 0 (Child.points c) - Reward.required_points reward)
          with (default 0 (Child.points c) + - Reward.required_points reward) by lia.
        by apply (points_after_update _ _ _ c).
    + intros Hlt.
      assert (Ha : StoredProcedure.approve_reward_redemption actor id
                     (Server.db (ParentRedemptionsPage.server w))
                   = inl (StoredProcedure.error "InsufficientBalance")).
      { unfold StoredProcedure.approve_reward_redemption, StoredProcedure.applyDelta.
        rewrite Hload, Hreward, Hchild. cbn zeta. by rewrite decide_True by lia. }
      split; [done|].
      pose proof (rpc_call_cases (StoredProcedure.approve_reward_redemption actor) id w) as H.
      cbn zeta in H. rewrite Hruns, Ha in H.
      destruct (ParentRedemptionsPage.approve _ id w) as [ok w']. cbn [fst snd].
      by destruct H as (-> & -> & _).
    + change (ParentRedemptionsPage.reject
                (StoredProcedure.reject_reward_redemption actor) id w)
        with (ParentRedemptionsPage.approve
                (StoredProcedure.reject_reward_redemption actor) id w).
      pose proof (rpc_call_cases (StoredProcedure.reject_reward_redemption actor) id w) as H.
      cbn zeta in H. rewrite Hruns in H.
      unfold StoredProcedure.reject_reward_redemption in H. rewrite Hload in H.
      destruct (ParentRedemptionsPage.approve _ id w) as [ok w']. cbn [fst snd].
      destruct H as (-> & ->). split; [done|].
      destruct (handle_rows id rejected actor (Server.db (ParentRedemptionsPage.server w)))
        as [Hst _].
      split; [exact Hst|]. done.
Qed.

Lemma approve_does_not_check_status_witness :
  (Forall (λ row', RewardRedemption.id row' = 7 → RewardRedemption.status row' = approved)
     (Server.reward_redemptions (Server.db (RewardRequestsPage.server
        (RewardRequestsPage.approve Scenario.pendingGame
           Scenario.handledRequestsPage).2))))
  ∧ (ParentRedemptionsPage.approve (Scenario.refusing Scenario.timeout) 1
       (Scenario.redemptionsPage [])).1 = false
  ∧ Server.db (ParentRedemptionsPage.server
       (ParentRedemptionsPage.approve (λ _ _, inr Scenario.db) 1
          (Scenario.redemptionsPage [])).2)
    = Scenario.db
  ∧ (StoredProcedure.approve_reward_redemption "u1" 1
       (Server.db (ParentRedemptionsPage.server (Scenario.redemptionsPage [])))
     = inl (StoredProcedure.error "InvalidState")
     ∧ ParentRedemptionsPage.items
         (ParentRedemptionsPage.reject (StoredProcedure.reject_reward_redemption "u1") 1
            (Scenario.redemptionsPage [])).2
       = [])
  ∧ (ParentRedemptionsPage.approve (StoredProcedure.approve_reward_redemption "u1") 9
       Scenario.stickerPage).1 = true
  ∧ StoredProcedure.approve_reward_redemption "u1" 3
      (Server.db (ParentRedemptionsPage.server (Scenario.redemptionsPage [])))
    = inl (StoredProcedure.error "InsufficientBalance").
Proof.
  destruct approve_does_not_check_status as (Hsimple & Hproc & Hhandled & Hpending).
  split; [|split; [|split; [|split; [|split]]]].
  - exact (proj1 (Hsimple Scenario.pendingGame Scenario.handledRequestsPage
                    (Scenario.request 7 rejected 50)
                    eq_refl eq_refl (list_elem_of_here _ _) eq_refl)).
  - exact (proj1 (proj1 (proj1 (Hproc (Scenario.refusing Scenario.timeout) 1
                                  (Scenario.redemptionsPage []))
                           (or_intror (ex_intro _ Scenario.timeout eq_refl))))).
  - exact (proj1 (proj2 (Hproc (λ _ _, inr Scenario.db) 1 (Scenario.redemptionsPage []))
                    Scenario.db eq_refl eq_refl)).
  - assert (Hall : Forall (λ r, RewardRedemption.id r = 1 → RewardRedemption.status r ≠ pending)
                     (Server.reward_redemptions
                        (Server.db (ParentRedemptionsPage.server (Scenario.redemptionsPage []))))).
    { apply (bool_decide_unpack _). vm_compute. exact I. }
    destruct (Hhandled "u1" 1 (Scenario.redemptionsPage []) Hall) as (Hkind & _ & Hrej).
    split.
    + apply Hkind. exists (Scenario.request 1 approved 10). split; [|reflexivity].
      apply list_elem_of_further, list_elem_of_here.
    + exact (proj2 (proj2 Hrej)).
  - exact (proj1 (proj1 (Hpending "u1" 9 Scenario.stickerPage Scenario.stickerRequest
                           Scenario.sticker Scenario.taro
                           eq_refl eq_refl eq_refl eq_refl eq_refl)
                    ltac:(vm_compute; discriminate))).
  - exact (proj1 (proj1 (proj2 (Hpending "u1" 3 (Scenario.redemptionsPage [])
                                  (Scenario.request 3 pending 30)
                                  Scenario.game Scenario.taro
                                  eq_refl eq_refl eq_refl eq_refl eq_refl))
                    ltac:(vm_compute; reflexivity))).
Defined.

(** ** Toggling twice *)

#[local] Arguments Task.update_is_done : simpl never.
#[local] Arguments Child.update_points : simpl never.
#[local] Arguments Server.ledger_sum : simpl never.




(** ** Requesting a redemption *)

(** Every way [exchangeReward] can return. *)
Lemma exchangeReward_cases reward w :
  let s := ChildRewardsPage.server w in
  let d := Server.db s in
  let sel := ChildRewardsPage.selectedChildId w in
  let '(e, w') := ChildRewardsPage.exchangeReward reward w in
  let d' := Server.db (ChildRewardsPage.server w') in
  ChildRewardsPage.pointsMap w' = ChildRewardsPage.pointsMap w ∧
  match e with
  | ChildRewardsPage.NoChildSelected => sel = "" ∧ d' = d
  | ChildRewardsPage.NotEnoughPoints =>
      sel ≠ "" ∧ ChildRewardsPage.current w < Reward.required_points reward ∧ d' = d
  | ChildRewardsPage.InsertFailed _ =>
      sel ≠ "" ∧ Reward.required_points reward ≤ ChildRewardsPage.current w
      ∧ Server.runs 0 s = false ∧ d' = d
  | ChildRewardsPage.Requested =>
      sel ≠ "" ∧ Reward.required_points reward ≤ ChildRewardsPage.current w
      ∧ Server.runs 0 s = true
      ∧ d' = (Server.reward_redemptions_insert sel (Reward.id reward) pending d).2
  end.
Proof.
  destruct w as [[d fs u] sel pm].
  unfold ChildRewardsPage.exchangeReward, ChildRewardsPage.backend, Server.runs.
  unfold_queries. run_page.
  destruct (decide (sel = "")) as [Hsel|Hsel]; cbn; [done|].
  destruct (decide (ChildRewardsPage.current _ < _)) as [Hlt|Hge]; cbn; [done|].
  apply Z.nlt_ge in Hge.
  next_call fs; done.
Qed.

(** ** Balance and ledger sum *)

Lemma toggled_keeps_balance sel task c d :
  filter (λ c, Child.id c = sel) (Server.children d) = [c] →
  0 ≤ default 0 (Child.points c) + ChildPage.delta task →
  Ledger.balanced d → Ledger.balanced (Ledger.toggled sel task c d).
Proof.
  intros Hrow Hpos Hbal. unfold Ledger.balanced, Ledger.toggled in *. cbn.
  unfold Child.update_points. apply Forall_fmap.
  apply Forall_forall. intros x Hx. unfold compose. cbn beta.
  rewrite Forall_forall in Hbal. specialize (Hbal x Hx).
  case_decide as Hid; cbn; rewrite ledger_sum_app.
  - assert (x ∈ [c]) as Hxc.
    { rewrite <- Hrow. by apply list_elem_of_filter. }
    apply list_elem_of_singleton in Hxc. subst x.
    rewrite ledger_sum_own by done. cbn. rewrite <- Hbal. lia.
  - rewrite ledger_sum_other by (cbn; congruence). lia.
Qed.

(** C2 fails on the code as stated: the store holds 5 points backed by a
    +5 ledger row; undoing a done 10-point task stores 0 points while the
    ledger sums to -5. *)
Lemma toggle_keeps_balance_equal_to_ledger_refuted :
  ¬ (∀ task w nd dl np w',
       ChildPage.toggleDone task w = (ChildPage.Toggled nd dl np, w') →
       Ledger.balanced (Server.db (ChildPage.server w)) →
       Ledger.balanced (Server.db (ChildPage.server w'))).
Proof.
  intros H.
  specialize (H Scenario.homework (Scenario.childPage []) false (-10) 0 _
                ltac:(vm_compute; reflexivity)).
  assert (Hbefore : Ledger.balanced (Server.db (ChildPage.server (Scenario.childPage [])))).
  { apply (bool_decide_unpack _). vm_compute. exact I. }
  apply H in Hbefore. pose proof (bool_decide_pack _ Hbefore) as Hafter.
  vm_compute in Hafter. exact Hafter.
Qed.

Lemma toggled_keeps_cover sel task c d :
  filter (λ c, Child.id c = sel) (Server.children d) = [c] →
  Ledger.covered d → Ledger.covered (Ledger.toggled sel task c d).
Proof.
  intros Hrow Hcov. unfold Ledger.covered, Ledger.toggled in *. cbn.
  unfold Child.update_points. apply Forall_fmap.
  apply Forall_forall. intros x Hx. unfold compose. cbn beta.
  rewrite Forall_forall in Hcov. specialize (Hcov x Hx).
  case_decide as Hid; cbn; rewrite ledger_sum_app.
  - assert (x ∈ [c]) as Hxc.
    { rewrite <- Hrow. by apply list_elem_of_filter. }
    apply list_elem_of_singleton in Hxc. subst x.
    rewrite ledger_sum_own by done. cbn. lia.
  - rewrite ledger_sum_other by (cbn; congruence). lia.
Qed.

(** A request changes neither the children nor the ledger. *)
Lemma exchangeReward_keeps_ledger reward w :
  let d := Server.db (ChildRewardsPage.server w) in
  let d' := Server.db (ChildRewardsPage.server
                         (ChildRewardsPage.exchangeReward reward w).2) in
  Server.children d' = Server.children d
  ∧ Server.point_transactions d' = Server.point_transactions d.
Proof.
  cbn zeta. pose proof (exchangeReward_cases reward w) as H. cbn zeta in H.
  destruct (ChildRewardsPage.exchangeReward reward w) as [e w']. cbn [snd].
  destruct H as [_ H].
  destruct e;
    [ destruct H as (_ & ->) | destruct H as (_ & _ & ->)
    | destruct H as (_ & _ & _ & ->) | destruct H as (_ & _ & _ & ->) ];
    done.
Qed.

(** C2 (as the code has it). Starting from a store in which every child's
    balance equals the sum of its ledger rows, the equality still holds
    after any sequence of task toggles that ran to their end without
    hitting the zero clamp and of redemption requests.  With toggles that
    do hit the clamp in the sequence, the balance is still never below the
    ledger sum. *)
Theorem balance_matches_ledger d d' :
  (Ledger.balanced d → rtc Ledger.committed d d' → Ledger.balanced d')
  ∧ (Ledger.covered d → rtc Ledger.performed d d' → Ledger.covered d').
Proof.
  split.
  - intros Hbal Hsteps. induction Hsteps as [d|d d1 d' Hstep _ IH]; [done|].
    apply IH. clear IH.
    destruct Hstep as [task w nd dl np w' Hrun Hun|reward w e w' Hrun].
    + pose proof (toggleDone_cases task w) as H. rewrite Hrun in H.
      destruct H as (_ & _ & _ & _ & c & Hrow & _ & -> & _).
      apply toggled_keeps_balance; [done| |done].
      unfold Ledger.unclamped in Hun. rewrite Forall_forall in Hun.
      assert (c ∈ filter (λ c, Child.id c = ChildPage.selectedChildId w)
                    (Server.children (Server.db (ChildPage.server w)))) as Hc.
      { rewrite Hrow. apply list_elem_of_here. }
      apply list_elem_of_filter in Hc as [Hid Hin]. by apply Hun.
    + destruct (exchangeReward_keeps_ledger reward w) as [Hchildren Hledger].
      rewrite Hrun in Hchildren, Hledger. cbn [snd] in Hchildren, Hledger.
      unfold Ledger.balanced. by rewrite Hchildren, Hledger.
  - intros Hcov Hsteps. induction Hsteps as [d|d d1 d' Hstep _ IH]; [done|].
    apply IH. clear IH.
    destruct Hstep as [task w nd dl np w' Hrun _|reward w e w' Hrun].
    + pose proof (toggleDone_cases task w) as H. rewrite Hrun in H.
      destruct H as (_ & _ & _ & _ & c & Hrow & _ & -> & _).
      by apply toggled_keeps_cover.
    + destruct (exchangeReward_keeps_ledger reward w) as [Hchildren Hledger].
      rewrite Hrun in Hchildren, Hledger. cbn [snd] in Hchildren, Hledger.
      unfold Ledger.covered. by rewrite Hchildren, Hledger.
Qed.

Lemma balance_matches_ledger_witness :
  Ledger.balanced
    (Server.db (ChildRewardsPage.server
       (ChildRewardsPage.exchangeReward Scenario.sticker
          {| ChildRewardsPage.server :=
               ChildPage.server
                 (ChildPage.toggleDone Scenario.dishes (Scenario.childPage [])).2;
             ChildRewardsPage.selectedChildId := "c1";
             ChildRewardsPage.pointsMap := {[ "c1" := 15 ]} |}).2))
  ∧ Ledger.covered
      (Server.db (ChildPage.server
         (ChildPage.toggleDone Scenario.homework (Scenario.childPage [])).2)).
Proof.
  split.
  - apply (proj1 (balance_matches_ledger Scenario.db _)).
    + apply (bool_decide_unpack _). vm_compute. exact I.
    + eapply rtc_l.
      * apply (Ledger.step_toggle _ Scenario.dishes (Scenario.childPage [])
                 true 10 15
                 (ChildPage.toggleDone Scenario.dishes (Scenario.childPage [])).2).
        -- vm_compute. reflexivity.
        -- apply (bool_decide_unpack _). vm_compute. exact I.
      * eapply rtc_l; [|apply rtc_refl].
        apply (Ledger.step_request _ Scenario.sticker
                 {| ChildRewardsPage.server :=
                      ChildPage.server
                        (ChildPage.toggleDone Scenario.dishes (Scenario.childPage [])).2;
                    ChildRewardsPage.selectedChildId := "c1";
                    ChildRewardsPage.pointsMap := {[ "c1" := 15 ]} |}
                 ChildRewardsPage.Requested _).
        vm_compute. reflexivity.
  - apply (proj2 (balance_matches_ledger Scenario.db _)).
    + apply (bool_decide_unpack _). vm_compute. exact I.
    + eapply rtc_l; [|apply rtc_refl].
      apply (Ledger.step_toggle _ Scenario.homework (Scenario.childPage [])
               false (-10) 0
               (ChildPage.toggleDone Scenario.homework (Scenario.childPage [])).2).
      * vm_compute. reflexivity.
      * exact I.
Defined.

(** C10. A redemption request inserts a row only when the page's cached
    points of the selected child are at least the reward's required
    points, and the row it inserts is pending, for that child and that
    reward.  When the cached points are lower the request is refused and
    the store is left as it was.  With a child selected, enough cached
    points and the backend answering, the request does insert the row. *)
Theorem exchangeReward_requires_cached_points reward w :
  let s := ChildRewardsPage.server w in
  let d := Server.db s in
  let sel := ChildRewardsPage.selectedChildId w in
  let e := (ChildRewardsPage.exchangeReward reward w).1 in
  let d' := Server.db (ChildRewardsPage.server (ChildRewardsPage.exchangeReward reward w).2) in
  (ChildRewardsPage.current w < Reward.required_points reward →
     (e = ChildRewardsPage.NoChildSelected ∨ e = ChildRewardsPage.NotEnoughPoints)
     ∧ d' = d)
  ∧ (Server.reward_redemptions d' ≠ Server.reward_redemptions d →
       Reward.required_points reward ≤ ChildRewardsPage.current w
       ∧ e = ChildRewardsPage.Requested
       ∧ ∃ row, Server.reward_redemptions d' = Server.reward_redemptions d ++ [row]
           ∧ RewardRedemption.status row = pending
           ∧ RewardRedemption.child_id row = sel
           ∧ RewardRedemption.reward_id row = Reward.id reward)
  ∧ (sel ≠ "" → Reward.required_points reward ≤ ChildRewardsPage.current w →
       Server.runs 0 s = true →
       e = ChildRewardsPage.Requested
       ∧ length (Server.reward_redemptions d') = S (length (Server.reward_redemptions d))).
Proof.
  cbn zeta. pose proof (exchangeReward_cases reward w) as H. cbn zeta in H.
  destruct (ChildRewardsPage.exchangeReward reward w) as [e w']. cbn [fst snd].
  destruct H as [_ H].
  destruct e.
  - destruct H as (Hsel & ->). split; [auto|]. split; [done|]. intros Hne. done.
  - destruct H as (Hsel & Hlt & ->). split; [auto|]. split; [done|]. intros _ Hge. lia.
  - destruct H as (Hsel & Hge & Hrun & ->). split; [lia|]. split; [done|].
    intros _ _ Hr. congruence.
  - destruct H as (Hsel & Hge & Hrun & ->). split; [lia|]. split.
    + intros _. split; [done|]. split; [done|]. eexists. cbn. split; [reflexivity|done].
    + intros _ _ _. split; [done|]. cbn. rewrite length_app. cbn. lia.
Qed.

Lemma exchangeReward_requires_cached_points_witness :
  ((ChildRewardsPage.exchangeReward Scenario.game (Scenario.rewardsPage [])).1
     = ChildRewardsPage.NoChildSelected
   ∨ (ChildRewardsPage.exchangeReward Scenario.game (Scenario.rewardsPage [])).1
     = ChildRewardsPage.NotEnoughPoints)
  ∧ Server.db (ChildRewardsPage.server
       (ChildRewardsPage.exchangeReward Scenario.game (Scenario.rewardsPage [])).2)
    = Scenario.db
  ∧ (ChildRewardsPage.exchangeReward Scenario.sticker (Scenario.rewardsPage [])).1
    = ChildRewardsPage.Requested.
Proof.
  destruct (proj1 (exchangeReward_requires_cached_points Scenario.game
                     (Scenario.rewardsPage []))
              ltac:(vm_compute; reflexivity)) as [He Hd].
  split; [exact He|]. split; [exact Hd|].
  exact (proj1 (proj2 (proj2 (exchangeReward_requires_cached_points Scenario.sticker
                                (Scenario.rewardsPage [])))
                  ltac:(done) ltac:(vm_compute; discriminate) eq_refl)).
Defined.

(** ** The list of pending requests *)

Global Instance requested_le_trans : Transitive Server.requested_le.
Proof. unfold Server.requested_le. intros a b c. lia. Qed.

Global Instance requested_le_total : Total Server.requested_le.
Proof. unfold Server.requested_le. intros a b. lia. Qed.

(** The order of the page's rows by [requested_at]. *)
Lemma select_columns_sorted d (rows : list RewardRedemption.t) :
  StronglySorted Server.requested_le rows →
  StronglySorted (λ a b, ParentRedemptionsPage.requested_at a
                         ≤ ParentRedemptionsPage.requested_at b)
                 (ParentRedemptionsPage.select_columns d <$> rows).
Proof. apply StronglySorted_fmap. intros a b Hab. exact Hab. Qed.

Lemma StronglySorted_filter {A} (R : relation A) (P : A → Prop)
    `{∀ x, Decision (P x)} (l : list A) :
  StronglySorted R l → StronglySorted R (filter P l).
Proof.
  induction 1 as [|x l Hl IH Hx]; [constructor|].
  destruct (decide (P x)).
  - rewrite filter_cons_True by done. constructor; [done|].
    apply Forall_forall. intros y Hy. apply list_elem_of_filter in Hy as [_ Hy].
    rewrite Forall_forall in Hx. by apply Hx.
  - by rewrite filter_cons_False.
Qed.

Lemma Forall_filter_keeps {A} (Q P : A → Prop) `{∀ x, Decision (P x)} (l : list A) :
  Forall Q l → Forall Q (filter P l).
Proof.
  rewrite !Forall_forall. intros Hl x Hx.
  apply list_elem_of_filter in Hx as [_ Hx]. by apply Hl.
Qed.

(** C8. Whatever the table of requests holds, [fetchRows] either throws
    (exactly when the backend fails the call) or returns the pending
    requests and nothing else, each of them once, ordered by [requested_at]
    ascending; the store is only read.  After a reload that went through,
    the rows the page shows, for all children or for the selected one, are
    pending and in that order. *)
Theorem fetchRows_pending_oldest_first w :
  let s := ParentRedemptionsPage.server w in
  let d := Server.db s in
  let oldest_first :=
    StronglySorted (λ a b, ParentRedemptionsPage.requested_at a
                           ≤ ParentRedemptionsPage.requested_at b) in
  let all_pending := Forall (λ r, ParentRedemptionsPage.status r = pending) in
  Server.db (ParentRedemptionsPage.server (ParentRedemptionsPage.fetchRows w).2) = d
  ∧ match (ParentRedemptionsPage.fetchRows w).1 with
    | inr rows =>
        Server.runs 0 s = true
        ∧ all_pending rows
        ∧ oldest_first rows
        ∧ rows ≡ₚ ParentRedemptionsPage.select_columns d
                    <$> filter Server.is_pending (Server.reward_redemptions d)
    | inl _ => Server.runs 0 s = false
    end
  ∧ (Server.runs 0 s = true →
       all_pending (ParentRedemptionsPage.visibleItems (ParentRedemptionsPage.reload w).2)
       ∧ oldest_first (ParentRedemptionsPage.visibleItems (ParentRedemptionsPage.reload w).2)).
Proof.
  cbn zeta.
  assert (Hrows :
    let rows := ParentRedemptionsPage.select_columns (Server.db (ParentRedemptionsPage.server w))
                  <$> merge_sort Server.requested_le
                        (filter Server.is_pending
                           (Server.reward_redemptions
                              (Server.db (ParentRedemptionsPage.server w)))) in
    Forall (λ r, ParentRedemptionsPage.status r = pending) rows
    ∧ StronglySorted (λ a b, ParentRedemptionsPage.requested_at a
                             ≤ ParentRedemptionsPage.requested_at b) rows
    ∧ rows ≡ₚ ParentRedemptionsPage.select_columns (Server.db (ParentRedemptionsPage.server w))
                <$> filter Server.is_pending
                      (Server.reward_redemptions
                         (Server.db (ParentRedemptionsPage.server w)))).
  { cbn zeta. split; [|split].
    - apply Forall_fmap. rewrite merge_sort_Permutation.
      apply Forall_forall. intros r Hr. apply list_elem_of_filter in Hr as [Hr _].
      exact Hr.
    - apply select_columns_sorted, StronglySorted_merge_sort; apply _.
    - by rewrite merge_sort_Permutation. }
  cbn zeta in Hrows. destruct Hrows as (Hpend & Hsort & Hperm).
  destruct w as [[d fs u] ld it sel]. cbn in Hpend, Hsort, Hperm.
  unfold ParentRedemptionsPage.reload, ParentRedemptionsPage.visibleItems,
    ParentRedemptionsPage.fetchRows, ParentRedemptionsPage.backend,
    ParentRedemptionsPage.pending_rows,
    Server.reward_redemptions_select_pending_ordered, Server.runs.
  unfold_queries. run_page.
  assert (Hvis : ∀ l : list ParentRedemptionsPage.Redemption,
    Forall (λ r, ParentRedemptionsPage.status r = pending) l →
    StronglySorted (λ a b, ParentRedemptionsPage.requested_at a
                           ≤ ParentRedemptionsPage.requested_at b) l →
    Forall (λ r, ParentRedemptionsPage.status r = pending)
      (if decide (sel = "all") then l
       else filter (λ r, ParentRedemptionsPage.child_id r = sel) l)
    ∧ StronglySorted (λ a b, ParentRedemptionsPage.requested_at a
                             ≤ ParentRedemptionsPage.requested_at b)
        (if decide (sel = "all") then l
         else filter (λ r, ParentRedemptionsPage.child_id r = sel) l)).
  { intros l Hl Hs. destruct (decide (sel = "all")); [done|].
    split; [by apply Forall_filter_keeps|by apply StronglySorted_filter]. }
  next_call fs; (split; [done|]); (split; [done|]); try done; intros _; by apply Hvis.
Qed.

Lemma fetchRows_pending_oldest_first_witness :
  Forall (λ r, ParentRedemptionsPage.status r = pending)
    (ParentRedemptionsPage.visibleItems
       (ParentRedemptionsPage.reload (Scenario.redemptionsPage [])).2)
  ∧ StronglySorted (λ a b, ParentRedemptionsPage.requested_at a
                           ≤ ParentRedemptionsPage.requested_at b)
      (ParentRedemptionsPage.visibleItems
         (ParentRedemptionsPage.reload (Scenario.redemptionsPage [])).2).
Proof.
  exact (proj2 (proj2 (fetchRows_pending_oldest_first (Scenario.redemptionsPage [])))
           eq_refl).
Defined.

(** ** The pages on concrete stores *)

(** Of the three stored requests the approved one is left out and the two
    pending ones come back oldest first. *)
Example fetchRows_queue :
  match (ParentRedemptionsPage.fetchRows (Scenario.redemptionsPage [])).1 with
  | inr rows => ParentRedemptionsPage.id <$> rows = [2; 3]
  | inl _ => False
  end.
Proof. vm_compute. reflexivity. Qed.

(** Doing the dishes and undoing them again: +10 then -10, back at 5 points. *)
Example toggle_dishes_twice :
  Child.points <$> Server.children (Server.db (ChildPage.server
    (ChildPage.toggleDone (Task.set_is_done true Scenario.dishes)
       (ChildPage.toggleDone Scenario.dishes (Scenario.childPage [])).2).2))
  = [Some 5]
  ∧ PointTransaction.points <$> Server.point_transactions (Server.db (ChildPage.server
      (ChildPage.toggleDone (Task.set_is_done true Scenario.dishes)
         (ChildPage.toggleDone Scenario.dishes (Scenario.childPage [])).2).2))
    = [5; 10; -10].
Proof. vm_compute. split; reflexivity. Qed.

(** A child with 5 points and a pending request for a 20-point reward: the
    simple page approves it. *)
Example approve_without_points :
  RewardRedemption.status <$> Server.reward_redemptions (Server.db (RewardRequestsPage.server
    (RewardRequestsPage.approve Scenario.pendingGame (Scenario.requestsPage [])).2))
  = [approved]
  ∧ PointTransaction.points <$> Server.point_transactions (Server.db (RewardRequestsPage.server
      (RewardRequestsPage.approve Scenario.pendingGame (Scenario.requestsPage [])).2))
    = [5; -20]
  ∧ RewardRequestsPage.list
      (RewardRequestsPage.approve Scenario.pendingGame (Scenario.requestsPage [])).2
    = [].
Proof. vm_compute. repeat split; reflexivity. Qed.

(** The status update went through and the insert of the spend row failed. *)
Example approve_without_spend_row :
  ¬ Ledger.spend_consistent (Server.db (RewardRequestsPage.server
      (RewardRequestsPage.approve Scenario.pendingGame
         (Scenario.requestsPage [None; Some Scenario.timeout])).2)).
Proof.
  intros H. pose proof (bool_decide_pack _ H) as Hb. vm_compute in Hb. exact Hb.
Qed.

(** * Further properties of the pages *)

(** ** Guards and frame of a toggle *)

(** X1. With no child selected, with a task of another child than the
    selected one, or without a signed-in user, [toggleDone] returns at once:
    the store and the page are exactly as before, and no backend call is
    used up. *)
Theorem toggleDone_guards task w :
  ChildPage.selectedChildId w = ""
  ∨ Task.child_id task ≠ ChildPage.selectedChildId w
  ∨ Server.user (ChildPage.server w) = None →
  (ChildPage.toggleDone task w).2 = w
  ∧ (ChildPage.toggleDone task w).1
    = (if decide (ChildPage.selectedChildId w = "") then ChildPage.NoChildSelected
       else if decide (Task.child_id task ≠ ChildPage.selectedChildId w)
            then ChildPage.OtherChildsTask
            else ChildPage.NotSignedIn).
Proof.
  destruct w as [[d fs u] sel ts pm]. cbn.
  unfold ChildPage.toggleDone, ChildPage.backend. unfold_queries. run_page.
  intros H.
  destruct (decide (sel = "")) as [Hsel|Hsel]; cbn; [done|].
  destruct (decide (Task.child_id task ≠ sel)) as [Hc|Hc]; cbn; [done|].
  destruct H as [H|[H|H]]; [done|done|]. subst u. cbn. done.
Qed.

Lemma toggleDone_guards_witness :
  (ChildPage.toggleDone Scenario.homework
     (ChildPageView.setSelectedChildId "c2" (Scenario.childPage []))).2
  = ChildPageView.setSelectedChildId "c2" (Scenario.childPage []).
Proof.
  assert (H : Task.child_id Scenario.homework
              ≠ ChildPage.selectedChildId
                  (ChildPageView.setSelectedChildId "c2" (Scenario.childPage []))).
  { cbn. discriminate. }
  destruct (toggleDone_guards Scenario.homework
              (ChildPageView.setSelectedChildId "c2" (Scenario.childPage []))
              (or_intror (or_introl H))) as [Hw _].
  exact Hw.
Defined.

(** X2. Whatever way [toggleDone] returns, it only appends to the ledger
    (and at most one row), leaves every child other than the selected one
    and every task other than the toggled one as stored, changes no id,
    child or point value of a task, and never touches the rewards or the
    redemption requests. *)
Theorem toggleDone_frame task w :
  let d := Server.db (ChildPage.server w) in
  let d' := Server.db (ChildPage.server (ChildPage.toggleDone task w).2) in
  (∃ new, Server.point_transactions d' = Server.point_transactions d ++ new
          ∧ (length new ≤ 1)%nat)
  ∧ filter (λ c, Child.id c ≠ ChildPage.selectedChildId w) (Server.children d')
    = filter (λ c, Child.id c ≠ ChildPage.selectedChildId w) (Server.children d)
  ∧ Child.id <$> Server.children d' = Child.id <$> Server.children d
  ∧ filter (λ x, Task.id x ≠ Task.id task) (Server.tasks d')
    = filter (λ x, Task.id x ≠ Task.id task) (Server.tasks d)
  ∧ (λ x, (Task.id x, Task.child_id x, Task.point x)) <$> Server.tasks d'
    = (λ x, (Task.id x, Task.child_id x, Task.point x)) <$> Server.tasks d
  ∧ Server.rewards d' = Server.rewards d
  ∧ Server.reward_redemptions d' = Server.reward_redemptions d.
Proof.
  cbn zeta. pose proof (toggleDone_cases task w) as H.
  destruct (ChildPage.toggleDone task w) as [e w']. cbn [snd].
  assert (Hnil : ∀ l : list PointTransaction.t, ∃ new, l = l ++ new ∧ (length new ≤ 1)%nat).
  { intros l. exists []. by rewrite app_nil_r; cbn; split; [|lia]. }
  destruct e.
  1-4: destruct H as (-> & _); repeat split; auto.
  1-2: destruct H as (-> & _); cbn;
       destruct (update_is_done_elsewhere (Task.id task) (ChildPage.nextDone task)
                   (Server.tasks (Server.db (ChildPage.server w)))) as [? ?];
       repeat split; auto.
  - destruct H as ((c & _ & ->) & _); cbn.
    destruct (update_is_done_elsewhere (Task.id task) (ChildPage.nextDone task)
                (Server.tasks (Server.db (ChildPage.server w)))) as [? ?].
    destruct (update_points_elsewhere (ChildPage.selectedChildId w)
                (Z.max 0 (default 0 (Child.points c) + ChildPage.delta task))
                (Server.children (Server.db (ChildPage.server w)))) as [? ?].
    repeat split; auto.
  - destruct H as (_ & _ & _ & _ & c & _ & _ & -> & _); cbn.
    destruct (update_is_done_elsewhere (Task.id task) (ChildPage.nextDone task)
                (Server.tasks (Server.db (ChildPage.server w)))) as [? ?].
    destruct (update_points_elsewhere (ChildPage.selectedChildId w)
                (Z.max 0 (default 0 (Child.points c) + ChildPage.delta task))
                (Server.children (Server.db (ChildPage.server w)))) as [? ?].
    repeat split; auto.
    eexists. split; [reflexivity|]. cbn. lia.
Qed.

(** The selection is not changed by a toggle. *)
Lemma toggleDone_keeps_selection task w :
  ChildPage.selectedChildId (ChildPage.toggleDone task w).2
  = ChildPage.selectedChildId w.
Proof.
  destruct w as [[d fs u] sel ts pm].
  unfold ChildPage.toggleDone, ChildPage.backend. unfold_queries. run_page.
  destruct (decide (sel = "")) as [Hsel|Hsel]; cbn; [done|].
  destruct (decide (Task.child_id task ≠ sel)) as [Hc|Hc]; cbn; [done|].
  destruct u; cbn; [|done].
  next_call fs; [ one_child d; done | done | ].
  next_call fs; [ one_child d; done | done | ].
  one_child d.
  next_call fs; [ done | done | ].
  next_call fs; done.
Qed.

(** X3. After a toggle that ran to its end the page shows what the store
    holds: the points shown for the selected child are the points stored
    for it, and if the page's tasks were those of the store before, they
    are again. *)
Theorem toggleDone_page_follows_store task w nd dl np w' :
  ChildPage.toggleDone task w = (ChildPage.Toggled nd dl np, w') →
  Child.points <$> filter (λ c, Child.id c = ChildPage.selectedChildId w')
                          (Server.children (Server.db (ChildPage.server w')))
  = [Some (ChildPageView.currentPoints w')]
  ∧ (ChildPage.tasks w = Server.tasks (Server.db (ChildPage.server w)) →
     ChildPage.tasks w' = Server.tasks (Server.db (ChildPage.server w'))).
Proof.
  intros Hrun.
  assert (Hsel : ChildPage.selectedChildId w' = ChildPage.selectedChildId w).
  { pose proof (toggleDone_keeps_selection task w) as Hk. by rewrite Hrun in Hk. }
  pose proof (toggleDone_cases task w) as H. rewrite Hrun in H.
  destruct H as (_ & _ & Hne & _ & c & Hrow & -> & Hd & Ht & Hp).
  rewrite Hsel. split.
  - rewrite Hd. cbn. rewrite filter_update_points, Hrow. cbn.
    unfold ChildPageView.currentPoints. rewrite Hsel, decide_False by done.
    by rewrite Hp, lookup_insert_eq.
  - intros Hsync. rewrite Ht, Hd, Hsync. done.
Qed.

Lemma toggleDone_page_follows_store_witness :
  Child.points <$> filter (λ c, Child.id c = "c1")
    (Server.children (Server.db (ChildPage.server
       (ChildPage.toggleDone Scenario.dishes (Scenario.childPage [])).2)))
  = [Some (ChildPageView.currentPoints
             (ChildPage.toggleDone Scenario.dishes (Scenario.childPage [])).2)].
Proof.
  exact (proj1 (toggleDone_page_follows_store Scenario.dishes (Scenario.childPage [])
                  true 10 15
                  (ChildPage.toggleDone Scenario.dishes (Scenario.childPage [])).2
                  ltac:(vm_compute; reflexivity))).
Defined.

(** ** The task list of the child's page *)

Lemma insert_done_after_undone (x : Task.t) (U D : list Task.t) :
  Task.is_done x = true →
  Forall (λ t, Task.is_done t = false) U →
  Forall (λ t, Task.is_done t = true) D →
  Array.insert (λ a b, ChildPageView.Number (Task.is_done a)
                       - ChildPageView.Number (Task.is_done b)) x (U ++ D)
  = U ++ x :: D.
Proof.
  intros Hx HU HD. induction HU as [|u U Hu _ IH]; cbn.
  - destruct HD as [|y D Hy _]; cbn; [done|].
    rewrite Hx, Hy. cbn. done.
  - rewrite Hx, Hu. cbn. by rewrite IH.
Qed.

Lemma insert_undone_first (x : Task.t) (l : list Task.t) :
  Task.is_done x = false →
  Array.insert (λ a b, ChildPageView.Number (Task.is_done a)
                       - ChildPageView.Number (Task.is_done b)) x l
  = x :: l.
Proof.
  intros Hx. destruct l as [|y l]; cbn; [done|].
  rewrite Hx. by destruct (Task.is_done y).
Qed.

Lemma sort_by_done (l : list Task.t) :
  Array.sort (λ a b, ChildPageView.Number (Task.is_done a)
                     - ChildPageView.Number (Task.is_done b)) l
  = filter (λ t, Task.is_done t = false) l ++ filter (λ t, Task.is_done t = true) l.
Proof.
  induction l as [|x l IH]; [done|]. cbn [Array.sort foldr].
  fold (Array.sort (λ a b, ChildPageView.Number (Task.is_done a)
                           - ChildPageView.Number (Task.is_done b)) l).
  rewrite IH. destruct (Task.is_done x) eqn:Hx.
  - rewrite filter_cons_False by (rewrite Hx; done).
    rewrite filter_cons_True by done.
    apply insert_done_after_undone; [done| |].
    + apply Forall_forall. intros t Ht. by apply list_elem_of_filter in Ht as [? _].
    + apply Forall_forall. intros t Ht. by apply list_elem_of_filter in Ht as [? _].
  - rewrite filter_cons_True by done.
    rewrite filter_cons_False by (rewrite Hx; done).
    by apply insert_undone_first.
Qed.

(** X4. The list the child sees holds the tasks of the selected child and
    no others: first those not yet done, then those done, each group in the
    order of the loaded list.  With no child selected it is empty. *)
Theorem sortedTasks_undone_then_done w :
  let mine := λ t, Task.child_id t = ChildPage.selectedChildId w in
  (ChildPage.selectedChildId w ≠ "" →
     ChildPageView.sortedTasks w
     = filter (λ t, Task.is_done t = false) (filter mine (ChildPage.tasks w))
       ++ filter (λ t, Task.is_done t = true) (filter mine (ChildPage.tasks w)))
  ∧ (ChildPage.selectedChildId w = "" → ChildPageView.sortedTasks w = [])
  ∧ ChildPageView.sortedTasks w ≡ₚ ChildPageView.visibleTasks w.
Proof.
  cbn zeta. unfold ChildPageView.sortedTasks. rewrite sort_by_done.
  split; [|split].
  - intros Hsel. unfold ChildPageView.visibleTasks. by rewrite decide_False.
  - intros Hsel. unfold ChildPageView.visibleTasks. by rewrite decide_True.
  - set (l := ChildPageView.visibleTasks w). clearbody l.
    induction l as [|x l IH]; [done|].
    destruct (Task.is_done x) eqn:Hx.
    + rewrite filter_cons_False by (rewrite Hx; done).
      rewrite filter_cons_True by done.
      rewrite <- Permutation_middle. by constructor.
    + rewrite filter_cons_True by done.
      rewrite filter_cons_False by (rewrite Hx; done).
      cbn. by constructor.
Qed.

Lemma sortedTasks_undone_then_done_witness :
  ChildPageView.sortedTasks (Scenario.childPage [])
  = filter (λ t, Task.is_done t = false)
      (filter (λ t, Task.child_id t = "c1") [Scenario.homework; Scenario.dishes])
    ++ filter (λ t, Task.is_done t = true)
         (filter (λ t, Task.child_id t = "c1") [Scenario.homework; Scenario.dishes]).
Proof.
  exact (proj1 (sortedTasks_undone_then_done (Scenario.childPage []))
           ltac:(discriminate)).
Defined.

(** ** The points map built on load *)

Lemma pm_lookup_from (m : gmap string Z) (l : list Child.t) i :
  foldl (λ m c, <[Child.id c := default 0 (Child.points c)]> m) m l !! i
  = match last (filter (λ c, Child.id c = i) l) with
    | Some c => Some (default 0 (Child.points c))
    | None => m !! i
    end.
Proof.
  revert m. induction l as [|c l IH]; intros m; [done|]. cbn [foldl].
  rewrite IH. destruct (decide (Child.id c = i)) as [Heq|Hne].
  - rewrite filter_cons_True by done. rewrite last_cons.
    destruct (last (filter _ l)); [done|]. by rewrite Heq, lookup_insert_eq.
  - rewrite filter_cons_False by done.
    destruct (last (filter _ l)); [done|]. by rewrite lookup_insert_ne.
Qed.

Lemma filter_none {A} (P : A → Prop) `{∀ x, Decision (P x)} (l : list A) :
  Forall (λ x, ¬ P x) l → filter P l = [].
Proof.
  induction 1 as [|x l Hx _ IH]; [done|]. by rewrite filter_cons_False.
Qed.

Lemma filter_own_id (l : list Child.t) c :
  NoDup (Child.id <$> l) → c ∈ l →
  filter (λ x, Child.id x = Child.id c) l = [c].
Proof.
  induction l as [|x l IH]; intros Hnd Hin; [by apply not_elem_of_nil in Hin|].
  csimpl in Hnd. apply NoDup_cons in Hnd as [Hx Hnd].
  apply elem_of_cons in Hin as [->|Hin].
  - rewrite filter_cons_True by done. f_equal.
    apply filter_none. apply Forall_forall. intros y Hy Heq.
    apply Hx. rewrite <- Heq. by apply list_elem_of_fmap_2.
  - rewrite filter_cons_False; [by apply IH|].
    intros Heq. apply Hx. rewrite Heq. by apply list_elem_of_fmap_2.
Qed.

(** X5. The map from child id to points that the pages build on load holds,
    for an id, the points of the last loaded row with that id (0 for a
    missing value).  With one row per child it holds each loaded child's
    points, and it holds nothing for an id that was not loaded, for which
    the page shows 0. *)
Theorem pm_lookup (l : list Child.t) i :
  ChildPageView.pm l !! i
  = (λ c, default 0 (Child.points c)) <$> last (filter (λ c, Child.id c = i) l)
  ∧ (∀ c, NoDup (Child.id <$> l) → c ∈ l →
       ChildPageView.pm l !! Child.id c = Some (default 0 (Child.points c)))
  ∧ (i ∉ Child.id <$> l → ChildPageView.pm l !! i = None).
Proof.
  assert (Hlast : ∀ j, ChildPageView.pm l !! j
                       = (λ c, default 0 (Child.points c))
                           <$> last (filter (λ c, Child.id c = j) l)).
  { intros j. unfold ChildPageView.pm. rewrite pm_lookup_from. by destruct (last _). }
  split; [apply Hlast|]. split.
  - intros c Hnd Hin. by rewrite Hlast, filter_own_id.
  - intros Hi. rewrite Hlast.
    replace (filter (λ c, Child.id c = i) l) with (@nil Child.t); [done|].
    symmetry. apply filter_none. apply Forall_forall. intros y Hy Heq.
    apply Hi. rewrite <- Heq. by apply list_elem_of_fmap_2.
Qed.

Lemma pm_lookup_witness :
  ChildPageView.pm [Scenario.taro] !! "c1" = Some 5
  ∧ ChildPageView.pm [Scenario.taro] !! "c2" = None.
Proof.
  split.
  - apply (proj1 (proj2 (pm_lookup [Scenario.taro] "c1")) Scenario.taro).
    + apply NoDup_singleton.
    + apply list_elem_of_here.
  - apply (proj2 (proj2 (pm_lookup [Scenario.taro] "c2"))).
    cbn. intros H. apply list_elem_of_singleton in H. discriminate H.
Defined.

(** ** The lists of the approval pages *)

(** The list the simple page holds after [approve]: what step ③ read from
    the store that ① and ② left, or nothing when ③ failed. *)
Lemma approve_list r w :
  let s := RewardRequestsPage.server w in
  let w' := (RewardRequestsPage.approve r w).2 in
  let d' := Server.db (RewardRequestsPage.server w') in
  RewardRequestsPage.list w'
  = (if Server.runs 2 s
     then omap (λ x, (λ y, {| RewardRedemptionWithReward.row := x;
                              RewardRedemptionWithReward.rewards := y |})
                       <$> Server.reward_of d' x)
               (filter Server.is_pending (Server.reward_redemptions d'))
     else []).
Proof.
  destruct w as [[d fs u] l].
  unfold RewardRequestsPage.approve, RewardRequestsPage.backend, Server.runs.
  unfold_queries. run_page.
  next_call fs; [done| |].
  - next_call fs; [done| |]; next_call fs; done.
  - next_call fs; [done| |]; next_call fs; done.
Qed.

(** X6. After [approve] on the simple page, when the list could be read
    again, it holds only requests that the store holds as pending, and,
    when the status update ran, none with the id of the approved request;
    when the list could not be read again, the page shows no request at
    all, whatever the store holds. *)
Theorem approve_refreshes_list r w :
  let s := RewardRequestsPage.server w in
  let w' := (RewardRequestsPage.approve r w).2 in
  let d' := Server.db (RewardRequestsPage.server w') in
  (Server.runs 2 s = true →
     Forall (λ x, RewardRedemptionWithReward.row x ∈ Server.reward_redemptions d'
                  ∧ RewardRedemption.status (RewardRedemptionWithReward.row x) = pending)
            (RewardRequestsPage.list w')
     ∧ (Server.runs 0 s = true →
        Forall (λ x, RewardRedemptionWithReward.id x ≠ RewardRedemptionWithReward.id r)
               (RewardRequestsPage.list w')))
  ∧ (Server.runs 2 s = false → RewardRequestsPage.list w' = []).
Proof.
  cbn zeta. pose proof (approve_list r w) as Hl. cbn zeta in Hl.
  destruct (approve_cases r w) as (Hs & _).
  split.
  - intros H2. rewrite H2 in Hl.
    assert (Hrows : ∀ x, x ∈ RewardRequestsPage.list (RewardRequestsPage.approve r w).2 →
              RewardRedemptionWithReward.row x
                ∈ Server.reward_redemptions
                    (Server.db (RewardRequestsPage.server (RewardRequestsPage.approve r w).2))
              ∧ RewardRedemption.status (RewardRedemptionWithReward.row x) = pending).
    { intros x Hx. rewrite Hl in Hx. apply list_elem_of_omap in Hx as (y & Hy & Hxy).
      apply list_elem_of_filter in Hy as [Hp Hy].
      destruct (Server.reward_of _ y); [|done]. cbn in Hxy.
      injection Hxy as <-. cbn. done. }
    split.
    + apply Forall_forall. intros x Hx. by apply Hrows.
    + intros H0. rewrite H0 in Hs.
      apply Forall_forall. intros x Hx Hid.
      destruct (Hrows x Hx) as [Hin Hpend].
      rewrite Hs in Hin.
      pose proof (status_after_update (RewardRedemptionWithReward.id r) approved
                    (Server.reward_redemptions (Server.db (RewardRequestsPage.server w))))
        as Hall.
      rewrite Forall_forall in Hall. specialize (Hall _ Hin Hid).
      rewrite Hall in Hpend. discriminate Hpend.
  - intros H2. by rewrite H2 in Hl.
Qed.

Lemma approve_refreshes_list_witness :
  Forall (λ x, RewardRedemptionWithReward.id x ≠ 7)
    (RewardRequestsPage.list
       (RewardRequestsPage.approve Scenario.pendingGame (Scenario.requestsPage [])).2)
  ∧ RewardRequestsPage.list
      (RewardRequestsPage.approve Scenario.pendingGame
         (Scenario.requestsPage [Some Scenario.timeout; None; Some Scenario.timeout])).2
    = [].
Proof.
  split.
  - exact (proj2 (proj1 (approve_refreshes_list Scenario.pendingGame
                           (Scenario.requestsPage [])) eq_refl) eq_refl).
  - exact (proj2 (approve_refreshes_list Scenario.pendingGame
                    (Scenario.requestsPage
                       [Some Scenario.timeout; None; Some Scenario.timeout])) eq_refl).
Defined.

(** X7. [reload] always ends with the loading flag cleared and never
    writes to the store.  When the rows could be fetched the list is
    replaced by the pending requests, oldest first; when fetching failed
    the list stays as it was. *)
Theorem reload_cases w :
  let s := ParentRedemptionsPage.server w in
  let d := Server.db s in
  let w' := (ParentRedemptionsPage.reload w).2 in
  ParentRedemptionsPage.loading w' = false
  ∧ ParentRedemptionsPage.selectedChildId w' = ParentRedemptionsPage.selectedChildId w
  ∧ Server.db (ParentRedemptionsPage.server w') = d
  ∧ ParentRedemptionsPage.items w'
    = (if Server.runs 0 s
       then ParentRedemptionsPage.select_columns d
              <$> merge_sort Server.requested_le
                    (filter Server.is_pending (Server.reward_redemptions d))
       else ParentRedemptionsPage.items w).
Proof.
  destruct w as [[d fs u] ld it sel].
  unfold ParentRedemptionsPage.reload, ParentRedemptionsPage.fetchRows,
    ParentRedemptionsPage.backend, ParentRedemptionsPage.pending_rows,
    Server.reward_redemptions_select_pending_ordered, Server.runs.
  unfold_queries. run_page.
  next_call fs; done.
Qed.

Lemma approve_success_reloads proc id w d1 :
  let s := ParentRedemptionsPage.server w in
  Server.runs 0 s = true →
  proc id (Server.db s) = inr d1 →
  let w' := (ParentRedemptionsPage.approve proc id w).2 in
  (ParentRedemptionsPage.approve proc id w).1 = true
  ∧ ParentRedemptionsPage.loading w' = false
  ∧ (Server.runs 1 s = false →
     ParentRedemptionsPage.items w' = ParentRedemptionsPage.items w)
  ∧ (Server.runs 1 s = true →
     ParentRedemptionsPage.items w'
     = ParentRedemptionsPage.select_columns d1
         <$> merge_sort Server.requested_le
               (filter Server.is_pending (Server.reward_redemptions d1))).
Proof.
  destruct w as [[d fs u] ld it sel]. cbn zeta. cbn [ParentRedemptionsPage.server Server.db].
  intros Hr Hp. revert Hr.
  unfold ParentRedemptionsPage.approve, ParentRedemptionsPage.reload,
    ParentRedemptionsPage.fetchRows, ParentRedemptionsPage.backend,
    ParentRedemptionsPage.pending_rows, ParentRedemptionsPage.rpc,
    Server.reward_redemptions_select_pending_ordered, Server.runs.
  unfold_queries. run_page.
  next_call fs; rewrite ?Hp; cbn; [done|done|].
  next_call fs; cbn; done.
Qed.

(** X8. When the stored procedure behind [approve] or [reject] goes
    through, the page shows its success, clears the loading flag and, if
    the list could be fetched, shows exactly the requests pending in the
    store that the procedure left, oldest first: a request the procedure
    took out of the pending state is no longer listed.  If the list could
    not be fetched the old list keeps being shown. *)
Theorem rpc_success_reloads proc id w d1 :
  let s := ParentRedemptionsPage.server w in
  Server.runs 0 s = true →
  proc id (Server.db s) = inr d1 →
  let after := λ (r : bool * ParentRedemptionsPage.World),
    r.1 = true
    ∧ ParentRedemptionsPage.loading r.2 = false
    ∧ (Server.runs 1 s = false →
       ParentRedemptionsPage.items r.2 = ParentRedemptionsPage.items w)
    ∧ (Server.runs 1 s = true →
       ParentRedemptionsPage.items r.2
       = ParentRedemptionsPage.select_columns d1
           <$> merge_sort Server.requested_le
                 (filter Server.is_pending (Server.reward_redemptions d1))
       ∧ (Forall (λ r, RewardRedemption.id r = id → RewardRedemption.status r ≠ pending)
                 (Server.reward_redemptions d1) →
          Forall (λ x, ParentRedemptionsPage.id x ≠ id) (ParentRedemptionsPage.items r.2))) in
  after (ParentRedemptionsPage.approve proc id w)
  ∧ after (ParentRedemptionsPage.reject proc id w).
Proof.
  cbn zeta. intros Hr Hp.
  change (ParentRedemptionsPage.reject proc id w)
    with (ParentRedemptionsPage.approve proc id w).
  destruct (approve_success_reloads proc id w d1 Hr Hp) as (Hok & Hl & Hkeep & Hitems).
  assert (Hlisted : Forall (λ r, RewardRedemption.id r = id → RewardRedemption.status r ≠ pending)
                      (Server.reward_redemptions d1) →
            Forall (λ x, ParentRedemptionsPage.id x ≠ id)
              (ParentRedemptionsPage.select_columns d1
                 <$> merge_sort Server.requested_le
                       (filter Server.is_pending (Server.reward_redemptions d1)))).
  { intros Hout. apply Forall_fmap. rewrite merge_sort_Permutation.
    apply Forall_forall. intros r Hin. apply list_elem_of_filter in Hin as [Hpend Hin].
    rewrite Forall_forall in Hout. cbn. intros Hid. by apply (Hout r Hin Hid). }
  assert (Hall : ∀ H1 : Server.runs 1 (ParentRedemptionsPage.server w) = true,
            ParentRedemptionsPage.items (ParentRedemptionsPage.approve proc id w).2
            = ParentRedemptionsPage.select_columns d1
                <$> merge_sort Server.requested_le
                      (filter Server.is_pending (Server.reward_redemptions d1))
            ∧ (Forall (λ r, RewardRedemption.id r = id → RewardRedemption.status r ≠ pending)
                      (Server.reward_redemptions d1) →
               Forall (λ x, ParentRedemptionsPage.id x ≠ id)
                 (ParentRedemptionsPage.items (ParentRedemptionsPage.approve proc id w).2))).
  { intros H1. split; [by apply Hitems|]. rewrite (Hitems H1). exact Hlisted. }
  done.
Qed.

Lemma rpc_success_reloads_witness :
  (ParentRedemptionsPage.approve (λ _ _, inr Scenario.db) 7
     (Scenario.redemptionsPage [])).1 = true
  ∧ ParentRedemptionsPage.loading
      (ParentRedemptionsPage.reject (λ _ _, inr Scenario.db) 7
         (Scenario.redemptionsPage [])).2 = false.
Proof.
  destruct (rpc_success_reloads (λ _ _, inr Scenario.db) 7
              (Scenario.redemptionsPage []) Scenario.db eq_refl eq_refl)
    as ((Hok & _) & (_ & Hl & _)).
  split; [exact Hok|exact Hl].
Defined.

(** ** The rewards a child can ask for *)

(** X9. The badge and the button of a reward agree with the guard inside
    [exchangeReward]: the shortfall shown is 0 exactly when the exchange is
    offered, and is otherwise the positive number of points missing; a
    request for a reward that is not offered is refused and leaves the
    store alone, and with a child selected and the backend answering, a
    request for an offered reward is made. *)
Theorem exchange_offer_matches_guard reward w :
  let e := (ChildRewardsPage.exchangeReward reward w).1 in
  let d' := Server.db (ChildRewardsPage.server (ChildRewardsPage.exchangeReward reward w).2) in
  (ChildRewardsView.canExchange reward w = true ↔ ChildRewardsView.remain reward w = 0)
  ∧ (ChildRewardsView.canExchange reward w = false →
       0 < ChildRewardsView.remain reward w
       ∧ ChildRewardsPage.current w + ChildRewardsView.remain reward w
         = Reward.required_points reward
       ∧ (e = ChildRewardsPage.NoChildSelected ∨ e = ChildRewardsPage.NotEnoughPoints)
       ∧ d' = Server.db (ChildRewardsPage.server w))
  ∧ (ChildRewardsView.canExchange reward w = true →
       ChildRewardsPage.selectedChildId w ≠ "" →
       Server.runs 0 (ChildRewardsPage.server w) = true →
       e = ChildRewardsPage.Requested).
Proof.
  cbn zeta. unfold ChildRewardsView.canExchange, ChildRewardsView.remain.
  pose proof (exchangeReward_cases reward w) as H. cbn zeta in H.
  destruct (ChildRewardsPage.exchangeReward reward w) as [e w']. cbn [fst snd].
  destruct H as [_ H].
  split; [|split].
  - rewrite bool_decide_eq_true. lia.
  - rewrite bool_decide_eq_false. intros Hlt.
    split; [lia|]. split; [lia|].
    destruct e.
    + destruct H as (_ & ->). auto.
    + destruct H as (_ & _ & ->). auto.
    + destruct H as (_ & Hge & _). lia.
    + destruct H as (_ & Hge & _). lia.
  - rewrite bool_decide_eq_true. intros Hge Hsel Hruns.
    destruct e.
    + by destruct H as (Hnone & _).
    + destruct H as (_ & Hlt & _). lia.
    + destruct H as (_ & _ & Hfail & _). congruence.
    + done.
Qed.

Lemma exchange_offer_matches_guard_witness :
  0 < ChildRewardsView.remain Scenario.game (Scenario.rewardsPage [])
  ∧ ChildRewardsPage.current (Scenario.rewardsPage [])
    + ChildRewardsView.remain Scenario.game (Scenario.rewardsPage [])
    = 20
  ∧ (ChildRewardsPage.exchangeReward Scenario.sticker (Scenario.rewardsPage [])).1
    = ChildRewardsPage.Requested.
Proof.
  destruct (exchange_offer_matches_guard Scenario.game (Scenario.rewardsPage []))
    as (_ & Hno & _).
  destruct (Hno eq_refl) as (Hpos & Hsum & _).
  split; [exact Hpos|]. split; [exact Hsum|].
  apply (proj2 (proj2 (exchange_offer_matches_guard Scenario.sticker
                         (Scenario.rewardsPage [])))); [reflexivity|discriminate|reflexivity].
Defined.

(** X10. The page lists a reward only for the child it was made for: with
    no child selected nothing is listed, a reward without a child is never
    listed, and a request made from a listed reward is stored for the child
    that the reward belongs to. *)
Theorem visibleRewards_belong_to_selection rewards w :
  (ChildRewardsPage.selectedChildId w = "" →
     ChildRewardsView.visibleRewards rewards w = [])
  ∧ (∀ reward, reward ∈ ChildRewardsView.visibleRewards rewards w →
       reward ∈ rewards
       ∧ Reward.child_id reward = Some (ChildRewardsPage.selectedChildId w)
       ∧ ((ChildRewardsPage.exchangeReward reward w).1 = ChildRewardsPage.Requested →
          ∃ row,
            Server.reward_redemptions
              (Server.db (ChildRewardsPage.server
                            (ChildRewardsPage.exchangeReward reward w).2))
            = Server.reward_redemptions (Server.db (ChildRewardsPage.server w)) ++ [row]
            ∧ Some (RewardRedemption.child_id row) = Reward.child_id reward
            ∧ RewardRedemption.reward_id row = Reward.id reward
            ∧ RewardRedemption.status row = pending)).
Proof.
  unfold ChildRewardsView.visibleRewards. split.
  - intros Hsel. by rewrite decide_True.
  - intros reward Hin.
    destruct (decide (ChildRewardsPage.selectedChildId w = "")) as [Hsel|Hsel];
      [by apply not_elem_of_nil in Hin|].
    apply list_elem_of_filter in Hin as [Hchild Hin].
    split; [done|]. split; [done|].
    pose proof (exchangeReward_cases reward w) as H. cbn zeta in H.
    destruct (ChildRewardsPage.exchangeReward reward w) as [e w']. cbn [fst snd].
    intros ->. destruct H as (_ & _ & _ & _ & ->). cbn.
    eexists. split; [reflexivity|]. cbn. by rewrite Hchild.
Qed.

Lemma visibleRewards_belong_to_selection_witness :
  Scenario.sticker ∈ [Scenario.game; Scenario.sticker]
  ∧ Reward.child_id Scenario.sticker = Some "c1".
Proof.
  destruct (proj2 (visibleRewards_belong_to_selection [Scenario.game; Scenario.sticker]
                     (Scenario.rewardsPage []))
              Scenario.sticker
              ltac:(apply list_elem_of_further, list_elem_of_here)) as (Hin & Hc & _).
  split; [exact Hin|exact Hc].
Defined.

(** X11. A request reserves nothing: it leaves the children's points and
    the page's cached points as they were, so a second request for the same
    reward passes the guard again and a second pending row for the same
    child and reward is stored, with the next id. *)
Theorem exchangeReward_twice reward w :
  let w1 := (ChildRewardsPage.exchangeReward reward w).2 in
  let w2 := (ChildRewardsPage.exchangeReward reward w1).2 in
  (ChildRewardsPage.exchangeReward reward w).1 = ChildRewardsPage.Requested →
  Server.runs 0 (ChildRewardsPage.server w1) = true →
  (ChildRewardsPage.exchangeReward reward w1).1 = ChildRewardsPage.Requested
  ∧ ChildRewardsPage.pointsMap w2 = ChildRewardsPage.pointsMap w
  ∧ Server.children (Server.db (ChildRewardsPage.server w2))
    = Server.children (Server.db (ChildRewardsPage.server w))
  ∧ ∃ row1 row2,
      Server.reward_redemptions (Server.db (ChildRewardsPage.server w2))
      = Server.reward_redemptions (Server.db (ChildRewardsPage.server w)) ++ [row1; row2]
      ∧ RewardRedemption.status row1 = pending
      ∧ RewardRedemption.status row2 = pending
      ∧ RewardRedemption.child_id row2 = RewardRedemption.child_id row1
      ∧ RewardRedemption.reward_id row2 = RewardRedemption.reward_id row1
      ∧ RewardRedemption.id row2 = RewardRedemption.id row1 + 1.
Proof.
  cbn zeta. intros Hfirst Hruns.
  assert (Hsel1 : ChildRewardsPage.selectedChildId (ChildRewardsPage.exchangeReward reward w).2
                  = ChildRewardsPage.selectedChildId w).
  { destruct w as [[d fs u] sel pm].
    unfold ChildRewardsPage.exchangeReward, ChildRewardsPage.backend.
    unfold_queries. run_page.
    destruct (decide (sel = "")); cbn; [done|].
    destruct (decide (ChildRewardsPage.current _ < _)); cbn; [done|].
    next_call fs; done. }
  pose proof (exchangeReward_cases reward w) as H. cbn zeta in H.
  destruct (ChildRewardsPage.exchangeReward reward w) as [e w1]. cbn [fst snd] in *.
  subst e. destruct H as (Hpm1 & Hsel & Hge & _ & Hd1).
  pose proof (exchangeReward_cases reward w1) as H. cbn zeta in H.
  destruct (ChildRewardsPage.exchangeReward reward w1) as [e w2]. cbn [fst snd].
  destruct H as (Hpm2 & H).
  assert (Hcur : ChildRewardsPage.current w1 = ChildRewardsPage.current w)
    by (unfold ChildRewardsPage.current; by rewrite Hpm1, Hsel1).
  destruct e.
  - destruct H as (Hnone & _). rewrite Hsel1 in Hnone. done.
  - destruct H as (_ & Hlt & _). lia.
  - destruct H as (_ & _ & Hfail & _). congruence.
  - destruct H as (_ & _ & _ & ->). rewrite Hd1, Hsel1. cbn.
    split; [done|]. split; [by rewrite Hpm2|]. split; [done|].
    eexists _, _. rewrite <- app_assoc. split; [reflexivity|]. cbn. done.
Qed.

Lemma exchangeReward_twice_witness :
  (ChildRewardsPage.exchangeReward Scenario.sticker
     (ChildRewardsPage.exchangeReward Scenario.sticker (Scenario.rewardsPage [])).2).1
  = ChildRewardsPage.Requested.
Proof.
  exact (proj1 (exchangeReward_twice Scenario.sticker (Scenario.rewardsPage [])
                  eq_refl eq_refl)).
Defined.

(** ** The child switcher *)

(** X12. A selection made in the switcher is the one it starts with the
    next time it mounts, whatever list of children the query then returns
    (the saved value is not checked against the list): the saved value has
    to be non-empty, and must not be the "all" value when "all" is not
    offered. *)
Theorem switcher_restores_selection p v list w :
  v ≠ "" →
  (ChildSwitcher.includeAll p = true ∨ v ≠ ChildSwitcher.allValue p) →
  let selected := ChildSwitcher.onSelect p v w in
  let again := ChildSwitcher.mounted p (inr list) selected.2 in
  selected.1 = v
  ∧ ChildSwitcher.localStorage selected.2 !! ChildSwitcher.storageKey p = Some v
  ∧ again.1 = Some v
  ∧ ChildSwitcher.value again.2 = v
  ∧ ChildSwitcher.children again.2 = list
  ∧ ChildSwitcher.loading again.2 = false.
Proof.
  intros Hv Hall. cbn zeta.
  unfold ChildSwitcher.mounted, ChildSwitcher.onSelect, ChildSwitcher.next. cbn.
  rewrite lookup_insert_eq. rewrite decide_True by done. done.
Qed.

Lemma switcher_restores_selection_witness :
  (ChildSwitcher.mounted
     {| ChildSwitcher.storageKey := "child_selected_child_id";
        ChildSwitcher.includeAll := false; ChildSwitcher.allValue := "all" |}
     (inr [])
     (ChildSwitcher.onSelect
        {| ChildSwitcher.storageKey := "child_selected_child_id";
           ChildSwitcher.includeAll := false; ChildSwitcher.allValue := "all" |}
        "c1"
        {| ChildSwitcher.localStorage := ∅; ChildSwitcher.loading := false;
           ChildSwitcher.children := []; ChildSwitcher.value := "" |}).2).1
  = Some "c1".
Proof.
  refine (proj1 (proj2 (proj2 (switcher_restores_selection
            {| ChildSwitcher.storageKey := "child_selected_child_id";
               ChildSwitcher.includeAll := false; ChildSwitcher.allValue := "all" |}
            "c1" []
            {| ChildSwitcher.localStorage := ∅; ChildSwitcher.loading := false;
               ChildSwitcher.children := []; ChildSwitcher.value := "" |}
            _ _)))).
  - discriminate.
  - right. discriminate.
Defined.

(** X13. What the switcher starts with when no saved value can be used
    (none saved, an empty one, or the "all" value while "all" is not
    offered): "all" when it is offered, else the first child of the list,
    else the empty selection.  When the query for the children fails,
    [onChange] is not called, the selection stays as it was, the list is
    empty and, without the "all" entry, the control has nothing to show. *)
Theorem switcher_initial_selection p list w :
  let saved := ChildSwitcher.localStorage w !! ChildSwitcher.storageKey p in
  (saved = None ∨ saved = Some ""
   ∨ (ChildSwitcher.includeAll p = false ∧ saved = Some (ChildSwitcher.allValue p)) →
   let r := ChildSwitcher.mounted p (inr list) w in
   ChildSwitcher.value r.2 = default "" r.1
   ∧ (ChildSwitcher.includeAll p = true → r.1 = Some (ChildSwitcher.allValue p))
   ∧ (ChildSwitcher.includeAll p = false →
      match list with
      | [] => r.1 = Some ""
      | c :: _ => r.1 = Some (ChildSwitcher.id c)
      end))
  ∧ (∀ e,
       let r := ChildSwitcher.mounted p (inl e) w in
       r.1 = None
       ∧ ChildSwitcher.value r.2 = ChildSwitcher.value w
       ∧ ChildSwitcher.children r.2 = []
       ∧ ChildSwitcher.loading r.2 = false
       ∧ ChildSwitcher.localStorage r.2 = ChildSwitcher.localStorage w
       ∧ (ChildSwitcher.includeAll p = false → ChildSwitcher.data p r.2 = [])).
Proof.
  cbn zeta. split; [|by (intros e; repeat split; try done; unfold ChildSwitcher.data; intros ->)].
  intros Hsaved. unfold ChildSwitcher.mounted, ChildSwitcher.next. cbn.
  destruct Hsaved as [-> | [-> | [Hall ->]]].
  - split; [done|]. split; [by intros ->|]. intros ->. by destruct list.
  - rewrite decide_False by (intros [? _]; done).
    split; [done|]. split; [by intros ->|]. intros ->. by destruct list.
  - rewrite decide_False by (intros [_ [?|?]]; congruence).
    rewrite Hall. split; [done|]. split; [done|]. intros _. by destruct list.
Qed.

Lemma switcher_initial_selection_witness :
  (ChildSwitcher.mounted
     {| ChildSwitcher.storageKey := "child_selected_child_id";
        ChildSwitcher.includeAll := false; ChildSwitcher.allValue := "all" |}
     (inr [{| ChildSwitcher.id := "c1"; ChildSwitcher.name := "taro" |}])
     {| ChildSwitcher.localStorage := {["child_selected_child_id" := "all"]};
        ChildSwitcher.loading := true;
        ChildSwitcher.children := []; ChildSwitcher.value := "" |}).1
  = Some "c1".
Proof.
  refine (proj2 (proj2 (proj1 (switcher_initial_selection
            {| ChildSwitcher.storageKey := "child_selected_child_id";
               ChildSwitcher.includeAll := false; ChildSwitcher.allValue := "all" |}
            [{| ChildSwitcher.id := "c1"; ChildSwitcher.name := "taro" |}]
            {| ChildSwitcher.localStorage := {["child_selected_child_id" := "all"]};
               ChildSwitcher.loading := true;
               ChildSwitcher.children := []; ChildSwitcher.value := "" |}) _)) eq_refl).
  right. right. split; reflexivity.
Defined.

(** X14. The task page uses the switcher without the "all" entry.  With
    no children and nothing usable saved, the switcher hands the page the
    empty selection, and the page then shows no task, shows 0 points and
    refuses every toggle without touching the store. *)
Theorem child_page_without_children task w cw :
  let p := {| ChildSwitcher.storageKey := "child_selected_child_id";
              ChildSwitcher.includeAll := false; ChildSwitcher.allValue := "all" |} in
  ChildSwitcher.localStorage cw !! "child_selected_child_id" = None →
  ∃ id,
    (ChildSwitcher.mounted p (inr []) cw).1 = Some id
    ∧ ChildPageView.sortedTasks (ChildPageView.setSelectedChildId id w) = []
    ∧ ChildPageView.currentPoints (ChildPageView.setSelectedChildId id w) = 0
    ∧ ChildPage.toggleDone task (ChildPageView.setSelectedChildId id w)
      = (ChildPage.NoChildSelected, ChildPageView.setSelectedChildId id w).
Proof.
  cbn zeta. intros Hsaved. exists "".
  unfold ChildSwitcher.mounted, ChildSwitcher.next. cbn. rewrite Hsaved. cbn.
  split; [done|]. split; [done|]. split; [done|].
  destruct w as [s sel ts pm]. reflexivity.
Qed.

Lemma child_page_without_children_witness :
  ∃ id,
    (ChildSwitcher.mounted
       {| ChildSwitcher.storageKey := "child_selected_child_id";
          ChildSwitcher.includeAll := false; ChildSwitcher.allValue := "all" |}
       (inr [])
       {| ChildSwitcher.localStorage := ∅; ChildSwitcher.loading := true;
          ChildSwitcher.children := []; ChildSwitcher.value := "" |}).1 = Some id
    ∧ ChildPage.toggleDone Scenario.dishes
        (ChildPageView.setSelectedChildId id (Scenario.childPage []))
      = (ChildPage.NoChildSelected,
         ChildPageView.setSelectedChildId id (Scenario.childPage [])).
Proof.
  destruct (child_page_without_children Scenario.dishes (Scenario.childPage [])
              {| ChildSwitcher.localStorage := ∅; ChildSwitcher.loading := true;
                 ChildSwitcher.children := []; ChildSwitcher.value := "" |}
              (lookup_empty _)) as (id & Hm & _ & _ & Ht).
  exists id. split; [exact Hm|exact Ht].
Defined.

(** ** The dashboard *)

Lemma filter_done_split (l : list Task.t) :
  (length (filter (λ t, Task.is_done t = true) l)
   + length (filter (λ t, negb (Task.is_done t) = true) l))%nat
  = length l.
Proof.
  induction l as [|t l IH]; [done|].
  destruct (Task.is_done t) eqn:Hd.
  - rewrite filter_cons_True by done.
    rewrite (filter_cons_False (λ t, negb (Task.is_done t) = true)) by (by rewrite Hd).
    cbn. lia.
  - rewrite filter_cons_False by (by rewrite Hd).
    rewrite (filter_cons_True (λ t, negb (Task.is_done t) = true)) by (by rewrite Hd).
    cbn. lia.
Qed.

(** X15. The three counters of the dashboard add up: done plus remaining
    is the total, for one child as for all; the list of tasks still to do
    has as many entries as the remaining counter says, none of them done;
    and the number of waiting requests shown for one child is never more
    than the number shown for all. *)
Theorem dashboard_counts w :
  (DashboardPage.doneCount w + DashboardPage.remainingCount w
   = DashboardPage.totalCount w)%nat
  ∧ length (DashboardPage.todoTasks w) = DashboardPage.remainingCount w
  ∧ Forall (λ t, Task.is_done t = false) (DashboardPage.todoTasks w)
  ∧ (DashboardPage.selectedChildId w ≠ "all" →
     Forall (λ t, Task.child_id t = DashboardPage.selectedChildId w)
            (DashboardPage.activeTasks w))
  ∧ (DashboardPage.pendingCount w ≤ length (DashboardPage.pendingRedemptions w))%nat.
Proof.
  unfold DashboardPage.doneCount, DashboardPage.remainingCount, DashboardPage.totalCount,
    DashboardPage.todoTasks, DashboardPage.pendingCount.
  split; [apply filter_done_split|]. split; [done|]. split; [|split].
  - apply Forall_forall. intros t Ht. apply list_elem_of_filter in Ht as [Ht _].
    by apply negb_true_iff.
  - intros Hsel. unfold DashboardPage.activeTasks. rewrite decide_False by done.
    apply Forall_forall. intros t Ht. by apply list_elem_of_filter in Ht as [Ht _].
  - case_decide; [done|]. apply length_filter.
Qed.

Lemma dashboard_counts_witness :
  Forall (λ t, Task.child_id t = "c1")
    (DashboardPage.activeTasks
       {| DashboardPage.selectedChildId := "c1"; DashboardPage.children := [Scenario.taro];
          DashboardPage.tasks := [Scenario.homework; Scenario.dishes];
          DashboardPage.pendingRedemptions := [] |}).
Proof.
  apply (proj1 (proj2 (proj2 (proj2 (dashboard_counts
           {| DashboardPage.selectedChildId := "c1"; DashboardPage.children := [Scenario.taro];
              DashboardPage.tasks := [Scenario.homework; Scenario.dishes];
              DashboardPage.pendingRedemptions := [] |}))))).
  discriminate.
Defined.

Lemma pointsSum_from (l : list Child.t) acc :
  foldl (λ sum c, sum + default 0 (Child.points c)) acc l
  = acc + foldl (λ sum c, sum + default 0 (Child.points c)) 0 l.
Proof.
  revert acc. induction l as [|c l IH]; intros acc; cbn; [lia|].
  rewrite IH, (IH (0 + _)). lia.
Qed.

(** X16. The points the dashboard shows: for one child whose id is found
    once in the list, that child's points (0 when none are stored); for a
    selection that matches no child, 0; and for "all", the points of the
    first child plus those of the rest. *)
Theorem dashboard_pointsSum sel children tasks pending :
  let w := {| DashboardPage.selectedChildId := sel; DashboardPage.children := children;
              DashboardPage.tasks := tasks;
              DashboardPage.pendingRedemptions := pending |} in
  (∀ c, sel ≠ "all" → filter (λ x, Child.id x = sel) children = [c] →
        DashboardPage.pointsSum w = default 0 (Child.points c))
  ∧ (sel ≠ "all" → filter (λ x, Child.id x = sel) children = [] →
     DashboardPage.pointsSum w = 0)
  ∧ (∀ c rest, sel = "all" → children = c :: rest →
       DashboardPage.pointsSum w
       = default 0 (Child.points c)
         + DashboardPage.pointsSum
             {| DashboardPage.selectedChildId := sel; DashboardPage.children := rest;
                DashboardPage.tasks := tasks;
                DashboardPage.pendingRedemptions := pending |}).
Proof.
  cbn zeta. unfold DashboardPage.pointsSum, DashboardPage.visibleChildren. cbn.
  split; [|split].
  - intros c Hsel Hrow. rewrite decide_False by done. by rewrite Hrow.
  - intros Hsel Hrow. rewrite decide_False by done. by rewrite Hrow.
  - intros c rest -> ->. rewrite !decide_True by done. cbn.
    by rewrite pointsSum_from.
Qed.

Lemma dashboard_pointsSum_witness :
  DashboardPage.pointsSum
    {| DashboardPage.selectedChildId := "c1"; DashboardPage.children := [Scenario.taro];
       DashboardPage.tasks := []; DashboardPage.pendingRedemptions := [] |}
  = 5.
Proof.
  refine (proj1 (dashboard_pointsSum "c1" [Scenario.taro] [] []) Scenario.taro _ eq_refl).
  discriminate.
Defined.

(** ** Route protection *)



